(** * gittuf: the policy mutators of [Repository]

    A shallow embedding of the six policy mutators of the gittuf
    repository interface ([InitializeTargets], [AddDelegation],
    [UpdateDelegation], [RemoveDelegation], [AddKeyToTargets] and
    [SignTargets]) and of the error and commit discipline they follow.

    The Go packages the mutators call ([policy], [dsse], [tuf] and the
    securesystemslib envelope types) are collaborators: their operations
    are the methods of two type classes, so that every statement about
    the control flow of a mutator holds for any implementation of them.
    A reference implementation written after the specification
    instantiates the classes where a statement is about what the
    collaborators compute. *)

From Stdlib Require Import Ascii String List ZArith Bool.
From stdpp Require Import base option gmap strings list.

Open Scope string_scope.

(** ** Errors and results *)

(** A Go [error] value that is not nil.  The four sentinels the mutators
    return by name come first; [ErrOther] stands for every other error
    value a collaborator may produce. *)
Inductive error : Type :=
| ErrInvalidPolicyName
| ErrCannotReinitialize
| ErrDuplicatedRuleName
| ErrMetadataNotFound
| ErrRuleNotFound
| ErrInvalidThreshold
| ErrPolicyNotInitialized
| ErrOther (msg : string).

#[global] Instance error_eq_dec : EqDecision error.
Proof. solve_decision. Defined.

(** A Go pair [(A, error)]: [inl err] when [err != nil]. *)
Definition result (A : Type) : Type := (error + A)%type.

(** ** Package [tuf] *)
Module tuf.

(** Modelled from the spec: the key tuple of the data model; the
    mutators read the fields [KeyType] and [KeyID]. *)
Record Key : Type := {
  KeyID : string;
  KeyType : string;
  Scheme : string;
  KeyVal : string
}.

(** Modelled from the spec: one delegation (rule) of a rule file. *)
Record Delegation : Type := {
  Name : string;
  AuthorizedKeys : list Key;
  Paths : list string;
  Threshold : Z
}.

(** Modelled from the spec: a rule file, with the role's own signer
    keys and its ordered delegations. *)
Record TargetsMetadata : Type := {
  RoleName : string;
  Keys : list Key;
  Delegations : list Delegation
}.

#[global] Instance Key_eq_dec : EqDecision Key.
Proof. solve_decision. Defined.
#[global] Instance Delegation_eq_dec : EqDecision Delegation.
Proof. solve_decision. Defined.
#[global] Instance TargetsMetadata_eq_dec : EqDecision TargetsMetadata.
Proof. solve_decision. Defined.

End tuf.

(** ** Package [sslibdsse]: envelopes and signers *)
Module sslibdsse.

Record Signature : Type := {
  SigKeyID : string;
  Sig : string
}.

(** The authenticated container: a serialized payload and the
    signatures over it. *)
Record Envelope : Type := {
  Payload : string;
  Signatures : list Signature
}.

(** The [SignerVerifier] interface, as the record of the methods the
    mutators and the signing adapter call. *)
Record SignerVerifier : Type := {
  KeyID : result string;
  Sign : string -> result string
}.

#[global] Instance Signature_eq_dec : EqDecision Signature.
Proof. solve_decision. Defined.
#[global] Instance Envelope_eq_dec : EqDecision Envelope.
Proof. solve_decision. Defined.

End sslibdsse.

(** ** Package [policy] *)
Module policy.

(** Modelled from the spec: the reserved name of the trust anchor. *)
Definition RootRoleName : string := "root".

(** Modelled from the spec: the name of the top-level rule file. *)
Definition TargetsRoleName : string := "targets".

(** The in-memory policy state.  [TargetsEnvelope] is a pointer
    ([None] is nil); [DelegationEnvelopes] is a Go map, and [None] is
    the nil map, which reads as empty and cannot be assigned to. *)
Record State : Type := {
  RootEnvelope : option sslibdsse.Envelope;
  TargetsEnvelope : option sslibdsse.Envelope;
  DelegationEnvelopes : option (gmap string sslibdsse.Envelope)
}.

(** [state.DelegationEnvelopes[name]], nil when there is no entry. *)
Definition delegationEnvelope (state : State) (name : string)
  : option sslibdsse.Envelope :=
  match DelegationEnvelopes state with
  | None => None
  | Some m => m !! name
  end.

(** [state.TargetsEnvelope = env]. *)
Definition setTargetsEnvelope (state : State) (env : sslibdsse.Envelope)
  : State :=
  {| RootEnvelope := RootEnvelope state;
     TargetsEnvelope := Some env;
     DelegationEnvelopes := DelegationEnvelopes state |}.

(** [state.DelegationEnvelopes[name] = env]; [None] is the run-time
    panic of an assignment to an entry of a nil map. *)
Definition setDelegationEnvelope (state : State) (name : string)
    (env : sslibdsse.Envelope) : option State :=
  match DelegationEnvelopes state with
  | None => None
  | Some m =>
      Some {| RootEnvelope := RootEnvelope state;
              TargetsEnvelope := TargetsEnvelope state;
              DelegationEnvelopes := Some (<[name := env]> m) |}
  end.

(** [state.DelegationEnvelopes = map[string]*Envelope{}] when the map
    is nil. *)
Definition makeDelegationEnvelopes (state : State) : State :=
  match DelegationEnvelopes state with
  | None =>
      {| RootEnvelope := RootEnvelope state;
         TargetsEnvelope := TargetsEnvelope state;
         DelegationEnvelopes := Some ∅ |}
  | Some _ => state
  end.

(** The envelope a role name selects: the top-level slot for
    ["targets"], the map entry otherwise. *)
Definition roleEnvelope (state : State) (name : string)
  : option sslibdsse.Envelope :=
  if decide (name = TargetsRoleName) then TargetsEnvelope state
  else delegationEnvelope state name.

(** The operations of the package the mutators call.  [GitRepository]
    is the handle [r.r] of the underlying store. *)
Class Package (GitRepository : Type) : Type := {
  PolicyStagingRef : string;
  LoadCurrentState : GitRepository -> string -> result State;
  Commit : State -> GitRepository -> string -> bool
           -> GitRepository * option error;
  HasTargetsRole : State -> string -> bool;
  HasRuleName : State -> string -> bool;
  GetTargetsMetadata : State -> string -> result tuf.TargetsMetadata;
  InitializeTargetsMetadata : tuf.TargetsMetadata;
  AddDelegation : tuf.TargetsMetadata -> string -> list tuf.Key
                  -> list string -> Z -> result tuf.TargetsMetadata;
  UpdateDelegation : tuf.TargetsMetadata -> string -> list tuf.Key
                     -> list string -> Z -> result tuf.TargetsMetadata;
  RemoveDelegation : tuf.TargetsMetadata -> string
                     -> result tuf.TargetsMetadata;
  AddKeyToTargets : tuf.TargetsMetadata -> list tuf.Key
                    -> result tuf.TargetsMetadata
}.

End policy.

(** ** Package [dsse]: the signing adapter *)
Module dsse.

(** [SignEnvelope] receives a pointer, so its argument may be nil. *)
Class Package : Type := {
  CreateEnvelope : tuf.TargetsMetadata -> result sslibdsse.Envelope;
  SignEnvelope : option sslibdsse.Envelope -> sslibdsse.SignerVerifier
                 -> result sslibdsse.Envelope
}.

End dsse.

(** ** Package [repository]: the mutators *)
Module repository.

(** How a mutator ends: it returns an error value without calling
    [Commit] ([None] is Go's nil), or it ends in the tail call
    [state.Commit(r.r, commitMessage, signCommit)] and returns what
    that call returns, or it panics on an assignment to an entry of a
    nil map. *)
Inductive exit : Type :=
| Return (err : option error)
| TailCommit (state : policy.State) (commitMessage : string)
             (signCommit : bool)
| Panic.

(** A line feed, Go's ["\n"]. *)
Definition newline : string := String (Ascii.ascii_of_nat 10) EmptyString.

(** The receiver: a wrapper around the handle of the store. *)
Record Repository (GitRepository : Type) : Type := { r : GitRepository }.
Arguments r {GitRepository} _.

Section Mutators.
Context {GitRepository : Type}.
Context `{!policy.Package GitRepository} `{!dsse.Package}.

Definition InitializeTargets (this : Repository GitRepository)
    (signer : sslibdsse.SignerVerifier) (targetsRoleName : string)
    (signCommit : bool) : exit :=
  if decide (targetsRoleName = policy.RootRoleName)
  then Return (Some ErrInvalidPolicyName) else
  match sslibdsse.KeyID signer with
  | inl err => Return None
  | inr keyID =>
  match policy.LoadCurrentState (r this) policy.PolicyStagingRef with
  | inl err => Return (Some err)
  | inr state =>
  if policy.HasTargetsRole state targetsRoleName
  then Return (Some ErrCannotReinitialize) else
  let targetsMetadata := policy.InitializeTargetsMetadata in
  match dsse.CreateEnvelope targetsMetadata with
  | inl err => Return None
  | inr env =>
  match dsse.SignEnvelope (Some env) signer with
  | inl err => Return None
  | inr env =>
  let updated :=
    if decide (targetsRoleName = policy.TargetsRoleName)
    then Some (policy.setTargetsEnvelope state env)
    else policy.setDelegationEnvelope
           (policy.makeDelegationEnvelopes state) targetsRoleName env in
  match updated with
  | None => Panic
  | Some state =>
  let commitMessage := "Initialize policy '" +:+ targetsRoleName +:+ "'" in
  TailCommit state commitMessage signCommit
  end end end end end.

Definition AddDelegation (this : Repository GitRepository)
    (signer : sslibdsse.SignerVerifier)
    (targetsRoleName ruleName : string) (authorizedKeys : list tuf.Key)
    (rulePatterns : list string) (threshold : Z) (signCommit : bool)
  : exit :=
  if decide (ruleName = policy.RootRoleName)
  then Return (Some ErrInvalidPolicyName) else
  match sslibdsse.KeyID signer with
  | inl err => Return None
  | inr keyID =>
  match policy.LoadCurrentState (r this) policy.PolicyStagingRef with
  | inl err => Return (Some err)
  | inr state =>
  if policy.HasRuleName state ruleName
  then Return (Some ErrDuplicatedRuleName) else
  if negb (policy.HasTargetsRole state targetsRoleName)
  then Return (Some ErrMetadataNotFound) else
  match policy.GetTargetsMetadata state targetsRoleName with
  | inl err => Return (Some err)
  | inr targetsMetadata =>
  match policy.AddDelegation targetsMetadata ruleName authorizedKeys
          rulePatterns threshold with
  | inl err => Return (Some err)
  | inr targetsMetadata =>
  match dsse.CreateEnvelope targetsMetadata with
  | inl err => Return None
  | inr env =>
  match dsse.SignEnvelope (Some env) signer with
  | inl err => Return None
  | inr env =>
  let updated :=
    if decide (targetsRoleName = policy.TargetsRoleName)
    then Some (policy.setTargetsEnvelope state env)
    else policy.setDelegationEnvelope state targetsRoleName env in
  match updated with
  | None => Panic
  | Some state =>
  let commitMessage :=
    "Add rule '" +:+ ruleName +:+ "' to policy '"
      +:+ targetsRoleName +:+ "'" in
  TailCommit state commitMessage signCommit
  end end end end end end end.

Definition UpdateDelegation (this : Repository GitRepository)
    (signer : sslibdsse.SignerVerifier)
    (targetsRoleName ruleName : string) (authorizedKeys : list tuf.Key)
    (rulePatterns : list string) (threshold : Z) (signCommit : bool)
  : exit :=
  if decide (ruleName = policy.RootRoleName)
  then Return (Some ErrInvalidPolicyName) else
  match sslibdsse.KeyID signer with
  | inl err => Return None
  | inr keyID =>
  match policy.LoadCurrentState (r this) policy.PolicyStagingRef with
  | inl err => Return (Some err)
  | inr state =>
  if negb (policy.HasTargetsRole state targetsRoleName)
  then Return (Some ErrMetadataNotFound) else
  match policy.GetTargetsMetadata state targetsRoleName with
  | inl err => Return (Some err)
  | inr targetsMetadata =>
  match policy.UpdateDelegation targetsMetadata ruleName authorizedKeys
          rulePatterns threshold with
  | inl err => Return (Some err)
  | inr targetsMetadata =>
  match dsse.CreateEnvelope targetsMetadata with
  | inl err => Return None
  | inr env =>
  match dsse.SignEnvelope (Some env) signer with
  | inl err => Return None
  | inr env =>
  let updated :=
    if decide (targetsRoleName = policy.TargetsRoleName)
    then Some (policy.setTargetsEnvelope state env)
    else policy.setDelegationEnvelope state targetsRoleName env in
  match updated with
  | None => Panic
  | Some state =>
  let commitMessage :=
    "Update rule '" +:+ ruleName +:+ "' in policy '"
      +:+ targetsRoleName +:+ "'" in
  TailCommit state commitMessage signCommit
  end end end end end end end.

Definition RemoveDelegation (this : Repository GitRepository)
    (signer : sslibdsse.SignerVerifier)
    (targetsRoleName ruleName : string) (signCommit : bool) : exit :=
  match sslibdsse.KeyID signer with
  | inl err => Return None
  | inr keyID =>
  match policy.LoadCurrentState (r this) policy.PolicyStagingRef with
  | inl err => Return (Some err)
  | inr state =>
  if negb (policy.HasTargetsRole state targetsRoleName)
  then Return (Some ErrMetadataNotFound) else
  match policy.GetTargetsMetadata state targetsRoleName with
  | inl err => Return (Some err)
  | inr targetsMetadata =>
  match policy.RemoveDelegation targetsMetadata ruleName with
  | inl err => Return (Some err)
  | inr targetsMetadata =>
  match dsse.CreateEnvelope targetsMetadata with
  | inl err => Return None
  | inr env =>
  match dsse.SignEnvelope (Some env) signer with
  | inl err => Return None
  | inr env =>
  let updated :=
    if decide (targetsRoleName = policy.TargetsRoleName)
    then Some (policy.setTargetsEnvelope state env)
    else policy.setDelegationEnvelope state targetsRoleName env in
  match updated with
  | None => Panic
  | Some state =>
  let commitMessage :=
    "Remove rule '" +:+ ruleName +:+ "' from policy '"
      +:+ targetsRoleName +:+ "'" in
  TailCommit state commitMessage signCommit
  end end end end end end end.

(** The loop that lists the added keys, one ["\n<type>:<id>"] per
    key. *)
Definition keyIDsOf (authorizedKeys : list tuf.Key) : string :=
  fold_left
    (fun keyIDs key =>
       keyIDs +:+ newline +:+ tuf.KeyType key +:+ ":" +:+ tuf.KeyID key)
    authorizedKeys "".

Definition AddKeyToTargets (this : Repository GitRepository)
    (signer : sslibdsse.SignerVerifier) (targetsRoleName : string)
    (authorizedKeys : list tuf.Key) (signCommit : bool) : exit :=
  match sslibdsse.KeyID signer with
  | inl err => Return None
  | inr keyID =>
  match policy.LoadCurrentState (r this) policy.PolicyStagingRef with
  | inl err => Return (Some err)
  | inr state =>
  if negb (policy.HasTargetsRole state targetsRoleName)
  then Return (Some ErrMetadataNotFound) else
  let keyIDs := keyIDsOf authorizedKeys in
  match policy.GetTargetsMetadata state targetsRoleName with
  | inl err => Return (Some err)
  | inr targetsMetadata =>
  match policy.AddKeyToTargets targetsMetadata authorizedKeys with
  | inl err => Return (Some err)
  | inr targetsMetadata =>
  match dsse.CreateEnvelope targetsMetadata with
  | inl err => Return (Some err)
  | inr env =>
  match dsse.SignEnvelope (Some env) signer with
  | inl err => Return (Some err)
  | inr env =>
  let updated :=
    if decide (targetsRoleName = policy.TargetsRoleName)
    then Some (policy.setTargetsEnvelope state env)
    else policy.setDelegationEnvelope state targetsRoleName env in
  match updated with
  | None => Panic
  | Some state =>
  let commitMessage :=
    "Add keys to policy '" +:+ targetsRoleName +:+ "'" +:+ newline
      +:+ keyIDs in
  TailCommit state commitMessage signCommit
  end end end end end end end.

Definition SignTargets (this : Repository GitRepository)
    (signer : sslibdsse.SignerVerifier) (targetsRoleName : string)
    (signCommit : bool) : exit :=
  match policy.LoadCurrentState (r this) policy.PolicyStagingRef with
  | inl err => Return (Some err)
  | inr state =>
  if negb (policy.HasTargetsRole state targetsRoleName)
  then Return (Some ErrMetadataNotFound) else
  match sslibdsse.KeyID signer with
  | inl err => Return (Some err)
  | inr keyID =>
  let env :=
    if decide (targetsRoleName = policy.TargetsRoleName)
    then policy.TargetsEnvelope state
    else policy.delegationEnvelope state targetsRoleName in
  match dsse.SignEnvelope env signer with
  | inl err => Return (Some err)
  | inr env =>
  let updated :=
    if decide (targetsRoleName = policy.TargetsRoleName)
    then Some (policy.setTargetsEnvelope state env)
    else policy.setDelegationEnvelope state targetsRoleName env in
  match updated with
  | None => Panic
  | Some state =>
  let commitMessage :=
    "Add signature from key '" +:+ keyID +:+ "' to policy '"
      +:+ targetsRoleName +:+ "'" in
  TailCommit state commitMessage signCommit
  end end end end.

(** What the caller of a mutator observes: the store afterwards and
    the returned error, [None] when the mutator panicked.  Only the
    tail call of [Commit] can change the store. *)
Definition finish (this : Repository GitRepository) (e : exit)
  : option (GitRepository * option error) :=
  match e with
  | Return err => Some (r this, err)
  | TailCommit state commitMessage signCommit =>
      Some (policy.Commit state (r this) commitMessage signCommit)
  | Panic => None
  end.

End Mutators.

End repository.

(** ** A reference implementation of the collaborators

    The packages [policy] and [dsse] are implemented here after the
    specification, over an abstract serialization of rule files and a
    store that keeps the history of each reference. *)
Module reference.

(** The serialization of rule files, whose wire format is left open. *)
Class Codec : Type := {
  marshal : tuf.TargetsMetadata -> result string;
  unmarshal : string -> result tuf.TargetsMetadata
}.

(** One commit of the store: the envelopes it records, its message and
    whether the commit object itself is signed. *)
Record CommitObject : Type := {
  tree : policy.State;
  message : string;
  signed : bool
}.

(** The store: every reference with its commits, the tip first. *)
Record GitRepository : Type := {
  refs : gmap string (list CommitObject)
}.

(** The name of the policy-staging reference. *)
Definition PolicyStagingRef : string := "refs/gittuf/policy-staging".

(** The commits of a reference, none when it does not exist. *)
Definition history (repo : GitRepository) (ref : string)
  : list CommitObject :=
  default [] (refs repo !! ref).

(** Modelled from the spec: [load_current(ref)] reads the state at the
    tip of the reference and fails with [PolicyNotInitialized] if the
    Root document is absent. *)
Definition LoadCurrentState (repo : GitRepository) (ref : string)
  : result policy.State :=
  match history repo ref with
  | [] => inl ErrPolicyNotInitialized
  | tip :: _ =>
      match policy.RootEnvelope (tree tip) with
      | None => inl ErrPolicyNotInitialized
      | Some _ => inr (tree tip)
      end
  end.

(** Modelled from the spec: [commit(message, sign_commit)] creates one
    commit on the staging reference with the given message. *)
Definition Commit (state : policy.State) (repo : GitRepository)
    (commitMessage : string) (signCommit : bool)
  : GitRepository * option error :=
  ({| refs :=
        <[PolicyStagingRef :=
            {| tree := state; message := commitMessage;
               signed := signCommit |} :: history repo PolicyStagingRef]>
          (refs repo) |},
   None).

(** Modelled from the spec: [has_targets_role(name)], whether the state
    holds an envelope for the role. *)
Definition HasTargetsRole (state : policy.State) (name : string) : bool :=
  match policy.roleEnvelope state name with
  | Some _ => true
  | None => false
  end.

(** Whether a rule file has a delegation of the given name. *)
Definition hasDelegation (metadata : tuf.TargetsMetadata) (name : string)
  : bool :=
  existsb (fun d => bool_decide (tuf.Name d = name))
          (tuf.Delegations metadata).

(** Every role envelope of a state: the top-level one, then the
    delegated ones. *)
Definition roleEnvelopes (state : policy.State)
  : list sslibdsse.Envelope :=
  match policy.TargetsEnvelope state with
  | Some env => [env]
  | None => []
  end ++
  match policy.DelegationEnvelopes state with
  | Some m => (map_to_list m).*2
  | None => []
  end.

Section WithCodec.
Context `{!Codec}.

(** Modelled from the spec: [has_rule_name(name)] searches every
    role's delegation list for a name collision. *)
Definition HasRuleName (state : policy.State) (name : string) : bool :=
  existsb
    (fun env =>
       match unmarshal (sslibdsse.Payload env) with
       | inr metadata => hasDelegation metadata name
       | inl _ => false
       end)
    (roleEnvelopes state).

(** Modelled from the spec: [get_targets_metadata(role_name)] fails
    with [MetadataNotFound] if the role is unknown, and otherwise
    decodes the payload of the role's envelope. *)
Definition GetTargetsMetadata (state : policy.State) (name : string)
  : result tuf.TargetsMetadata :=
  match policy.roleEnvelope state name with
  | None => inl ErrMetadataNotFound
  | Some env => unmarshal (sslibdsse.Payload env)
  end.

(** Modelled from the spec: [create_envelope(metadata)] serializes the
    metadata; the envelope starts with an empty signature list. *)
Definition CreateEnvelope (metadata : tuf.TargetsMetadata)
  : result sslibdsse.Envelope :=
  match marshal metadata with
  | inl err => inl err
  | inr payload =>
      inr {| sslibdsse.Payload := payload; sslibdsse.Signatures := [] |}
  end.

End WithCodec.

(** Modelled from the spec: [initialize_targets()], role name
    ["targets"] and an empty delegation list. *)
Definition InitializeTargetsMetadata : tuf.TargetsMetadata :=
  {| tuf.RoleName := policy.TargetsRoleName;
     tuf.Keys := [];
     tuf.Delegations := [] |}.

(** A rule file with its delegation list replaced. *)
Definition withDelegations (metadata : tuf.TargetsMetadata)
    (delegations : list tuf.Delegation) : tuf.TargetsMetadata :=
  {| tuf.RoleName := tuf.RoleName metadata;
     tuf.Keys := tuf.Keys metadata;
     tuf.Delegations := delegations |}.

(** Modelled from the spec: [add_delegation] rejects the reserved name,
    a name already present and a threshold below 1 or above the number
    of keys, and otherwise appends the delegation. *)
Definition AddDelegation (metadata : tuf.TargetsMetadata)
    (ruleName : string) (authorizedKeys : list tuf.Key)
    (rulePatterns : list string) (threshold : Z)
  : result tuf.TargetsMetadata :=
  if decide (ruleName = policy.RootRoleName) then inl ErrInvalidPolicyName
  else if hasDelegation metadata ruleName then inl ErrDuplicatedRuleName
  else if bool_decide (threshold < 1
                       ∨ Z.of_nat (length authorizedKeys) < threshold)%Z
  then inl ErrInvalidThreshold
  else inr (withDelegations metadata
              (tuf.Delegations metadata ++
               [ {| tuf.Name := ruleName;
                    tuf.AuthorizedKeys := authorizedKeys;
                    tuf.Paths := rulePatterns;
                    tuf.Threshold := threshold |} ])).

(** Modelled from the spec: [update_delegation] rejects the reserved
    name, fails with [RuleNotFound] if the rule is absent, and
    otherwise replaces the named delegation in place. *)
Definition UpdateDelegation (metadata : tuf.TargetsMetadata)
    (ruleName : string) (authorizedKeys : list tuf.Key)
    (rulePatterns : list string) (threshold : Z)
  : result tuf.TargetsMetadata :=
  if decide (ruleName = policy.RootRoleName) then inl ErrInvalidPolicyName
  else if negb (hasDelegation metadata ruleName) then inl ErrRuleNotFound
  else inr (withDelegations metadata
              (map (fun d =>
                      if decide (tuf.Name d = ruleName)
                      then {| tuf.Name := ruleName;
                              tuf.AuthorizedKeys := authorizedKeys;
                              tuf.Paths := rulePatterns;
                              tuf.Threshold := threshold |}
                      else d)
                   (tuf.Delegations metadata))).

(** Modelled from the spec: [remove_delegation] rejects the reserved
    name and fails with [RuleNotFound] if the rule is absent. *)
Definition RemoveDelegation (metadata : tuf.TargetsMetadata)
    (ruleName : string) : result tuf.TargetsMetadata :=
  if decide (ruleName = policy.RootRoleName) then inl ErrInvalidPolicyName
  else if negb (hasDelegation metadata ruleName) then inl ErrRuleNotFound
  else inr (withDelegations metadata
              (filter (fun d => tuf.Name d ≠ ruleName)
                      (tuf.Delegations metadata))).

(** Modelled from the spec: [add_key] adds keys to the role's own
    signer set without altering the delegations. *)
Definition AddKeyToTargets (metadata : tuf.TargetsMetadata)
    (authorizedKeys : list tuf.Key) : result tuf.TargetsMetadata :=
  inr {| tuf.RoleName := tuf.RoleName metadata;
         tuf.Keys := list_union (tuf.Keys metadata) authorizedKeys;
         tuf.Delegations := tuf.Delegations metadata |}.

(** The signature list with the signature of [keyID] set: replaced
    where the key id already signed, appended otherwise. *)
Definition withSignature (signatures : list sslibdsse.Signature)
    (keyID sig : string) : list sslibdsse.Signature :=
  let signature :=
    {| sslibdsse.SigKeyID := keyID; sslibdsse.Sig := sig |} in
  if existsb (fun s => bool_decide (sslibdsse.SigKeyID s = keyID))
             signatures
  then map (fun s => if decide (sslibdsse.SigKeyID s = keyID)
                     then signature else s) signatures
  else signatures ++ [signature].

(** Modelled from the spec: [sign_envelope(envelope, signer)] computes
    the signer's key id, signs the payload and sets the signature of
    that key id; the payload is carried over. *)
Definition SignEnvelope (envelope : option sslibdsse.Envelope)
    (signer : sslibdsse.SignerVerifier) : result sslibdsse.Envelope :=
  match envelope with
  | None => inl (ErrOther "nil envelope")
  | Some envelope =>
      match sslibdsse.KeyID signer with
      | inl err => inl err
      | inr keyID =>
          match sslibdsse.Sign signer (sslibdsse.Payload envelope) with
          | inl err => inl err
          | inr sig =>
              inr {| sslibdsse.Payload := sslibdsse.Payload envelope;
                     sslibdsse.Signatures :=
                       withSignature (sslibdsse.Signatures envelope)
                                     keyID sig |}
          end
      end
  end.

(** The rule name occurs in the delegation list of some role of the
    state, anywhere in the delegation graph. *)
Definition ruleInGraph `{!Codec} (state : policy.State) (rule : string)
  : Prop :=
  ∃ env metadata delegation,
    (policy.TargetsEnvelope state = Some env ∨
     ∃ role, policy.delegationEnvelope state role = Some env) ∧
    unmarshal (sslibdsse.Payload env) = inr metadata ∧
    delegation ∈ tuf.Delegations metadata ∧
    tuf.Name delegation = rule.

(** Modelled from the spec: the round trip of the serialization, every
    serialized rule file decodes to the rule file it came from. *)
Class CodecLaws `{!Codec} : Prop := {
  unmarshal_marshal :
    ∀ metadata payload,
      marshal metadata = inr payload → unmarshal payload = inr metadata
}.

(** The two packages, implemented. *)
#[global] Instance policyPackage `{!Codec} : policy.Package GitRepository := {|
  policy.PolicyStagingRef := PolicyStagingRef;
  policy.LoadCurrentState := LoadCurrentState;
  policy.Commit := Commit;
  policy.HasTargetsRole := HasTargetsRole;
  policy.HasRuleName := HasRuleName;
  policy.GetTargetsMetadata := GetTargetsMetadata;
  policy.InitializeTargetsMetadata := InitializeTargetsMetadata;
  policy.AddDelegation := AddDelegation;
  policy.UpdateDelegation := UpdateDelegation;
  policy.RemoveDelegation := RemoveDelegation;
  policy.AddKeyToTargets := AddKeyToTargets
|}.

#[global] Instance dssePackage `{!Codec} : dsse.Package := {|
  dsse.CreateEnvelope := CreateEnvelope;
  dsse.SignEnvelope := SignEnvelope
|}.

End reference.

(** ** The mutators as one family *)
Module mutations.

(** A call of one of the six mutators, with its arguments other than
    the receiver, the signer and [signCommit]. *)
Inductive mutation : Type :=
| CallInitializeTargets (targetsRoleName : string)
| CallAddDelegation (targetsRoleName ruleName : string)
    (authorizedKeys : list tuf.Key) (rulePatterns : list string)
    (threshold : Z)
| CallUpdateDelegation (targetsRoleName ruleName : string)
    (authorizedKeys : list tuf.Key) (rulePatterns : list string)
    (threshold : Z)
| CallRemoveDelegation (targetsRoleName ruleName : string)
| CallAddKeyToTargets (targetsRoleName : string)
    (authorizedKeys : list tuf.Key)
| CallSignTargets (targetsRoleName : string).

(** The role whose envelope a call is about. *)
Definition roleOf (call : mutation) : string :=
  match call with
  | CallInitializeTargets role
  | CallAddDelegation role _ _ _ _
  | CallUpdateDelegation role _ _ _ _
  | CallRemoveDelegation role _
  | CallAddKeyToTargets role _
  | CallSignTargets role => role
  end.

(** [state'] is [state] with the slot of [role] replaced by [env] and
    everything else as it was. *)
Definition slotReplaced (state : policy.State) (role : string)
    (env : sslibdsse.Envelope) (state' : policy.State) : Prop :=
  policy.RootEnvelope state' = policy.RootEnvelope state ∧
  if decide (role = policy.TargetsRoleName)
  then policy.TargetsEnvelope state' = Some env ∧
       policy.DelegationEnvelopes state' = policy.DelegationEnvelopes state
  else policy.TargetsEnvelope state' = policy.TargetsEnvelope state ∧
       policy.delegationEnvelope state' role = Some env ∧
       ∀ other, other ≠ role →
         policy.delegationEnvelope state' other
         = policy.delegationEnvelope state other.

Section Family.
Context {GitRepository : Type}.
Context `{!policy.Package GitRepository} `{!dsse.Package}.

(** The mutator a call names, applied. *)
Definition run (this : repository.Repository GitRepository)
    (signer : sslibdsse.SignerVerifier) (call : mutation)
    (signCommit : bool) : repository.exit :=
  match call with
  | CallInitializeTargets role =>
      repository.InitializeTargets this signer role signCommit
  | CallAddDelegation role rule keys patterns threshold =>
      repository.AddDelegation this signer role rule keys patterns
        threshold signCommit
  | CallUpdateDelegation role rule keys patterns threshold =>
      repository.UpdateDelegation this signer role rule keys patterns
        threshold signCommit
  | CallRemoveDelegation role rule =>
      repository.RemoveDelegation this signer role rule signCommit
  | CallAddKeyToTargets role keys =>
      repository.AddKeyToTargets this signer role keys signCommit
  | CallSignTargets role =>
      repository.SignTargets this signer role signCommit
  end.

(** The rule file of [role] was read, transformed, wrapped in a fresh
    envelope and signed, giving [env']. *)
Definition resigned (signer : sslibdsse.SignerVerifier)
    (state : policy.State) (role : string)
    (transform : tuf.TargetsMetadata -> result tuf.TargetsMetadata)
    (env' : sslibdsse.Envelope) : Prop :=
  ∃ metadata metadata' env,
    policy.GetTargetsMetadata state role = inr metadata ∧
    transform metadata = inr metadata' ∧
    dsse.CreateEnvelope metadata' = inr env ∧
    dsse.SignEnvelope (Some env) signer = inr env'.

(** Every step of a call before the slot update succeeded: the key id
    resolved, the state [state] was loaded, every precondition check
    passed, the metadata was transformed, and the envelope was created
    and signed, giving [env']. *)
Definition prepared (this : repository.Repository GitRepository)
    (signer : sslibdsse.SignerVerifier) (call : mutation)
    (state : policy.State) (env' : sslibdsse.Envelope) : Prop :=
  (∃ keyID, sslibdsse.KeyID signer = inr keyID) ∧
  policy.LoadCurrentState (repository.r this) policy.PolicyStagingRef
  = inr state ∧
  match call with
  | CallInitializeTargets role =>
      role ≠ policy.RootRoleName ∧
      policy.HasTargetsRole state role = false ∧
      ∃ env,
        dsse.CreateEnvelope policy.InitializeTargetsMetadata = inr env ∧
        dsse.SignEnvelope (Some env) signer = inr env'
  | CallAddDelegation role rule keys patterns threshold =>
      rule ≠ policy.RootRoleName ∧
      policy.HasRuleName state rule = false ∧
      policy.HasTargetsRole state role = true ∧
      resigned signer state role
        (fun metadata =>
           policy.AddDelegation metadata rule keys patterns threshold)
        env'
  | CallUpdateDelegation role rule keys patterns threshold =>
      rule ≠ policy.RootRoleName ∧
      policy.HasTargetsRole state role = true ∧
      resigned signer state role
        (fun metadata =>
           policy.UpdateDelegation metadata rule keys patterns threshold)
        env'
  | CallRemoveDelegation role rule =>
      policy.HasTargetsRole state role = true ∧
      resigned signer state role
        (fun metadata => policy.RemoveDelegation metadata rule) env'
  | CallAddKeyToTargets role keys =>
      policy.HasTargetsRole state role = true ∧
      resigned signer state role
        (fun metadata => policy.AddKeyToTargets metadata keys) env'
  | CallSignTargets role =>
      policy.HasTargetsRole state role = true ∧
      dsse.SignEnvelope (policy.roleEnvelope state role) signer = inr env'
  end.

End Family.

End mutations.

(** ** Fixtures: a small store, three signers and a table codec *)
Module fixtures.

(** A codec given by a finite table of serialized rule files. *)
Definition tableMarshal (table : list (string * tuf.TargetsMetadata))
    (metadata : tuf.TargetsMetadata) : result string :=
  match find (fun entry => bool_decide (entry.2 = metadata)) table with
  | Some entry => inr entry.1
  | None => inl (ErrOther "cannot serialize")
  end.

Definition tableUnmarshal (table : list (string * tuf.TargetsMetadata))
    (payload : string) : result tuf.TargetsMetadata :=
  match find (fun entry => bool_decide (entry.1 = payload)) table with
  | Some entry => inr entry.2
  | None => inl (ErrOther "malformed payload")
  end.

Definition tableCodec (table : list (string * tuf.TargetsMetadata))
  : reference.Codec :=
  {| reference.marshal := tableMarshal table;
     reference.unmarshal := tableUnmarshal table |}.

Definition keyC : tuf.Key :=
  {| tuf.KeyID := "key-C"; tuf.KeyType := "ed25519";
     tuf.Scheme := "ed25519"; tuf.KeyVal := "public-C" |}.

(** The rule file right after initialization, and with one rule. *)
Definition emptyRules : tuf.TargetsMetadata :=
  reference.InitializeTargetsMetadata.

Definition protectMain : tuf.Delegation :=
  {| tuf.Name := "protect-main"; tuf.AuthorizedKeys := [keyC];
     tuf.Paths := ["git:refs/heads/main"]; tuf.Threshold := 1 |}.

Definition oneRule : tuf.TargetsMetadata :=
  reference.withDelegations emptyRules [protectMain].

Definition table : list (string * tuf.TargetsMetadata) :=
  [("targets:0", emptyRules); ("targets:1", oneRule)].

#[global] Instance codec : reference.Codec := tableCodec table.

(** A codec that cannot serialize anything. *)
Definition noCodec : reference.Codec := tableCodec [].

(** A signer that works, one whose key id cannot be resolved, and one
    whose key id resolves but that fails to sign. *)
Definition signerB : sslibdsse.SignerVerifier :=
  {| sslibdsse.KeyID := inr "key-B";
     sslibdsse.Sign := fun payload => inr ("sig-B:" +:+ payload) |}.

Definition signerNoKeyID : sslibdsse.SignerVerifier :=
  {| sslibdsse.KeyID := inl (ErrOther "key id unavailable");
     sslibdsse.Sign := fun payload => inr ("sig-X:" +:+ payload) |}.

Definition signerCannotSign : sslibdsse.SignerVerifier :=
  {| sslibdsse.KeyID := inr "key-D";
     sslibdsse.Sign := fun _ => inl (ErrOther "signing failed") |}.

Definition rootEnvelope : sslibdsse.Envelope :=
  {| sslibdsse.Payload := "root:1";
     sslibdsse.Signatures :=
       [ {| sslibdsse.SigKeyID := "key-A"; sslibdsse.Sig := "sig-A" |} ] |}.

(** The state with the Root document only. *)
Definition rootOnly : policy.State :=
  {| policy.RootEnvelope := Some rootEnvelope;
     policy.TargetsEnvelope := None;
     policy.DelegationEnvelopes := None |}.

Definition signedBy (payload : string) : sslibdsse.Envelope :=
  {| sslibdsse.Payload := payload;
     sslibdsse.Signatures :=
       [ {| sslibdsse.SigKeyID := "key-B";
            sslibdsse.Sig := "sig-B:" +:+ payload |} ] |}.

(** The state after the top-level rule file was initialized, and after
    the rule ["protect-main"] was added to it. *)
Definition withTargets : policy.State :=
  {| policy.RootEnvelope := Some rootEnvelope;
     policy.TargetsEnvelope := Some (signedBy "targets:0");
     policy.DelegationEnvelopes := None |}.

Definition withRule : policy.State :=
  {| policy.RootEnvelope := Some rootEnvelope;
     policy.TargetsEnvelope := Some (signedBy "targets:1");
     policy.DelegationEnvelopes := None |}.

(** The state with a delegated rule file ["team"] besides. *)
Definition withTeam : policy.State :=
  {| policy.RootEnvelope := Some rootEnvelope;
     policy.TargetsEnvelope := Some (signedBy "targets:1");
     policy.DelegationEnvelopes := Some {[ "team" := signedBy "targets:0" ]} |}.

(** The state after a delegated rule file ["team"] was initialized
    next to an initialized top-level one. *)
Definition teamInitialized : policy.State :=
  {| policy.RootEnvelope := Some rootEnvelope;
     policy.TargetsEnvelope := Some (signedBy "targets:0");
     policy.DelegationEnvelopes := Some {[ "team" := signedBy "targets:0" ]} |}.

(** A store whose staging reference holds the given state at its tip,
    and a store with no staging reference. *)
Definition storeAt (state : policy.State) : reference.GitRepository :=
  {| reference.refs :=
       {[ reference.PolicyStagingRef :=
            [ {| reference.tree := state;
                 reference.message := "seed";
                 reference.signed := false |} ] ]} |}.

Definition emptyStore : reference.GitRepository :=
  {| reference.refs := ∅ |}.

Definition repoAt (state : policy.State)
  : repository.Repository reference.GitRepository :=
  {| repository.r := storeAt state |}.

Definition emptyRepo : repository.Repository reference.GitRepository :=
  {| repository.r := emptyStore |}.

(** [InitializeTargets] and [AddDelegation] run with the codec that
    cannot serialize. *)
Definition initializeWithoutCodec (this : repository.Repository
                                            reference.GitRepository)
    (signer : sslibdsse.SignerVerifier) (role : string) : repository.exit :=
  @repository.InitializeTargets reference.GitRepository
    (@reference.policyPackage noCodec) (@reference.dssePackage noCodec)
    this signer role false.

(** The arguments of the rule ["protect-main"]. *)
Definition mainPatterns : list string := ["git:refs/heads/main"].

End fixtures.


(** ** Package [gitinterface]: running Git commands *)
Module gitinterface.

Definition binary : string := "git".
Definition committerTimeKey : string := "GIT_COMMITTER_DATE".
Definition authorTimeKey : string := "GIT_AUTHOR_DATE".

(** A Go error value: its message ([Error()]) and the errors it wraps
    ([Unwrap()], filled by the [%w] verbs of [fmt.Errorf]). *)
#[local] Unset Elimination Schemes.
Inductive goerror : Type :=
| Errorf (message : string) (wrapped : list goerror).
#[local] Set Elimination Schemes.

Definition Error (err : goerror) : string :=
  match err with Errorf message _ => message end.

Definition Unwrap (err : goerror) : list goerror :=
  match err with Errorf _ wrapped => wrapped end.

(** An [io.Reader], given by what [io.ReadAll] returns on it. *)
Definition Reader : Type := (goerror + string)%type.

Definition ReadAll (reader : Reader) : goerror + string := reader.

(** What running a command leaves: the two output buffers, the error
    of [cmd.Run()] (nil when the command exits with status 0) and what
    the command left unread of its standard input. *)
Record Output : Type := {
  stdOut : Reader;
  stdErr : Reader;
  runErr : option goerror;
  stdInRest : string
}.

(** The operating system and the Go library the package calls:
    [exec.LookPath], [os.Getenv], [os.Environ], running the command
    [exec.Command(name, args...)] with an environment and a standard
    input, and [strings.TrimSpace]. *)
Class OS : Type := {
  LookPath : string -> goerror + string;
  Getenv : string -> string;
  Environ : list string;
  Run : string -> list string -> list string -> option string -> Output;
  TrimSpace : string -> string
}.

Inductive Clock : Type :=
| RealClock.

(** The wrapper around a Git repository: the location of its GIT_DIR
    and a clock ([None] is the nil interface). *)
Record Repository : Type := {
  gitDirPath : string;
  clock : option Clock
}.

(** The builder of a Git command.  [stdIn] is a pointer to a buffer
    ([None] is nil) and [setGitDirOnce] is the [sync.Once], true once
    it has run. *)
Record executor : Type := {
  r : Repository;
  args : list string;
  env : list string;
  stdIn : option string;
  setGitDirOnce : bool
}.

Definition GetGitDir (repo : Repository) : string := gitDirPath repo.

Section WithOS.
Context `{!OS}.

(** The method [executor] of [Repository]. *)
Definition Repository_executor (repo : Repository) (arguments : list string)
  : executor :=
  {| r := repo; args := arguments; env := Environ; stdIn := None;
     setGitDirOnce := false |}.

Definition withEnv (e : executor) (variables : list string) : executor :=
  {| r := r e; args := args e; env := env e ++ variables;
     stdIn := stdIn e; setGitDirOnce := setGitDirOnce e |}.

Definition withGitDir (e : executor) : executor :=
  if setGitDirOnce e then e
  else {| r := r e;
          args := ["--git-dir"; gitDirPath (r e)] ++ args e;
          env := env e; stdIn := stdIn e; setGitDirOnce := true |}.

Definition withStdIn (e : executor) (input : option string) : executor :=
  {| r := r e; args := args e; env := env e; stdIn := input;
     setGitDirOnce := setGitDirOnce e |}.

(** Runs the command; the buffer behind [stdIn], when there is one, is
    left with what the command did not read. *)
Definition executeRaw (e : executor)
  : executor * (Reader * Reader * option goerror) :=
  let out := Run binary (args e) (env e) (stdIn e) in
  ({| r := r e; args := args e; env := env e;
      stdIn := match stdIn e with
               | None => None
               | Some _ => Some (stdInRest out)
               end;
      setGitDirOnce := setGitDirOnce e |},
   (stdOut out, stdErr out, runErr out)).

(** Sets the Git directory, runs the command and returns the contents
    of its standard output without surrounding space. *)
Definition execute (e : executor) : executor * (goerror + string) :=
  let e := withGitDir e in
  let '(e, (out, errOut, err)) := executeRaw e in
  match err with
  | Some err =>
      match ReadAll errOut with
      | inl newErr =>
          (e, inl (Errorf ("unable to read stderr contents: "
                             +:+ Error newErr +:+ "; original err: "
                             +:+ Error err)
                          [newErr; err]))
      | inr stdErrContents =>
          (e, inl (Errorf (Error err +:+ " when executing `git "
                             +:+ String.concat " " (args e) +:+ "`: "
                             +:+ stdErrContents)
                          [err]))
      end
  | None =>
      match ReadAll out with
      | inl err =>
          (e, inl (Errorf ("unable to read stdout contents: "
                             +:+ Error err)
                          [err]))
      | inr stdOutContents => (e, inr (TrimSpace stdOutContents))
      end
  end.

(** Finds the Git binary and the GIT_DIR of the working directory. *)
Definition LoadRepository : goerror + Repository :=
  match LookPath binary with
  | inl _ => inl (Errorf "unable to find Git binary, is Git installed?" [])
  | inr _ =>
  let repo := {| gitDirPath := ""; clock := Some RealClock |} in
  let envVar := Getenv "GIT_DIR" in
  if decide (envVar ≠ "")
  then inr {| gitDirPath := envVar; clock := clock repo |} else
  let '(_, (out, errOut, err)) :=
    executeRaw (Repository_executor repo ["rev-parse"; "--git-dir"]) in
  match err with
  | Some err =>
      match ReadAll errOut with
      | inl newErr =>
          inl (Errorf ("unable to read original err '" +:+ Error err
                         +:+ "' when loading repository: "
                         +:+ Error newErr)
                      [err; newErr])
      | inr errContents =>
          inl (Errorf ("unable to identify GIT_DIR: " +:+ Error err
                         +:+ ": " +:+ TrimSpace errContents)
                      [err])
      end
  | None =>
      match ReadAll out with
      | inl err =>
          inl (Errorf ("unable to identify GIT_DIR: " +:+ Error err)
                      [err])
      | inr stdOutContents =>
          inr {| gitDirPath := TrimSpace stdOutContents;
                 clock := clock repo |}
      end
  end
  end.

End WithOS.

End gitinterface.

(** ** The commit messages, read back *)
Module messages.

(** The six kinds of mutation a commit message can announce. *)
Inductive kind : Type :=
| Initialize | AddRule | UpdateRule | RemoveRule | AddKeys | AddSignature.

Definition kindOf (call : mutations.mutation) : kind :=
  match call with
  | mutations.CallInitializeTargets _ => Initialize
  | mutations.CallAddDelegation _ _ _ _ _ => AddRule
  | mutations.CallUpdateDelegation _ _ _ _ _ => UpdateRule
  | mutations.CallRemoveDelegation _ _ => RemoveRule
  | mutations.CallAddKeyToTargets _ _ => AddKeys
  | mutations.CallSignTargets _ => AddSignature
  end.

(** The rule a call names, for the three mutators of delegations. *)
Definition ruleOf (call : mutations.mutation) : option string :=
  match call with
  | mutations.CallAddDelegation _ rule _ _ _
  | mutations.CallUpdateDelegation _ rule _ _ _
  | mutations.CallRemoveDelegation _ rule => Some rule
  | _ => None
  end.

(** The message a call commits with; [keyID] is the key id of the
    signer, which only [SignTargets] writes into its message. *)
Definition messageOf (call : mutations.mutation) (keyID : string)
  : string :=
  match call with
  | mutations.CallInitializeTargets role =>
      "Initialize policy '" +:+ role +:+ "'"
  | mutations.CallAddDelegation role rule _ _ _ =>
      "Add rule '" +:+ rule +:+ "' to policy '" +:+ role +:+ "'"
  | mutations.CallUpdateDelegation role rule _ _ _ =>
      "Update rule '" +:+ rule +:+ "' in policy '" +:+ role +:+ "'"
  | mutations.CallRemoveDelegation role rule =>
      "Remove rule '" +:+ rule +:+ "' from policy '" +:+ role +:+ "'"
  | mutations.CallAddKeyToTargets role keys =>
      "Add keys to policy '" +:+ role +:+ "'" +:+ repository.newline
        +:+ String.concat ""
              (map (fun key =>
                      repository.newline +:+ tuf.KeyType key +:+ ":"
                        +:+ tuf.KeyID key)
                   keys)
  | mutations.CallSignTargets role =>
      "Add signature from key '" +:+ keyID +:+ "' to policy '" +:+ role
        +:+ "'"
  end.

(** No single quote occurs in the string. *)
Fixpoint quoteFree (s : string) : bool :=
  match s with
  | EmptyString => true
  | String c rest => negb (Ascii.eqb c "'"%char) && quoteFree rest
  end.

End messages.

(** ** Fixtures: a machine with Git *)
Module machine.

(** A machine on which [git rev-parse --git-dir] prints [".git"] and a
    newline, and every other command fails with status 128. *)
Definition exitStatus : gitinterface.goerror :=
  gitinterface.Errorf "exit status 128" [].

Definition runGit (name : string) (args env : list string)
    (input : option string) : gitinterface.Output :=
  if decide (args = ["rev-parse"; "--git-dir"])
  then {| gitinterface.stdOut := inr (".git" +:+ repository.newline);
          gitinterface.stdErr := inr "";
          gitinterface.runErr := None;
          gitinterface.stdInRest := "" |}
  else {| gitinterface.stdOut := inr "";
          gitinterface.stdErr := inr "fatal: not a git repository";
          gitinterface.runErr := Some exitStatus;
          gitinterface.stdInRest := "" |}.

(** Removes line feeds and spaces at both ends. *)
Fixpoint trimLeft (s : string) : string :=
  match s with
  | String c rest =>
      if Ascii.eqb c " "%char || Ascii.eqb c (Ascii.ascii_of_nat 10)
      then trimLeft rest else s
  | EmptyString => EmptyString
  end.

Definition trim (s : string) : string :=
  String.rev (trimLeft (String.rev (trimLeft s))).

Definition withGit (gitDir : string) : gitinterface.OS :=
  {| gitinterface.LookPath := fun _ => inr "/usr/bin/git";
     gitinterface.Getenv :=
       fun name => if decide (name = "GIT_DIR") then gitDir else "";
     gitinterface.Environ := ["HOME=/root"];
     gitinterface.Run := runGit;
     gitinterface.TrimSpace := trim |}.

Definition withoutGit : gitinterface.OS :=
  {| gitinterface.LookPath :=
       fun _ => inl (gitinterface.Errorf "executable file not found" []);
     gitinterface.Getenv := fun _ => "/srv/repo.git";
     gitinterface.Environ := [];
     gitinterface.Run := runGit;
     gitinterface.TrimSpace := trim |}.

Definition workRepo : gitinterface.Repository :=
  {| gitinterface.gitDirPath := ".git";
     gitinterface.clock := Some gitinterface.RealClock |}.

End machine.

(** ** Fixtures: names with a quote *)
Module quoted.

Definition ruleQuoted : string := "x' to policy 'team".
Definition roleQuoted : string := "team' to policy 'targets".

Definition rulesQuoted : tuf.TargetsMetadata :=
  reference.withDelegations fixtures.emptyRules
    [ {| tuf.Name := ruleQuoted; tuf.AuthorizedKeys := [fixtures.keyC];
         tuf.Paths := fixtures.mainPatterns; tuf.Threshold := 1 |} ].

Definition rulesPlain : tuf.TargetsMetadata :=
  reference.withDelegations fixtures.emptyRules
    [ {| tuf.Name := "x"; tuf.AuthorizedKeys := [fixtures.keyC];
         tuf.Paths := fixtures.mainPatterns; tuf.Threshold := 1 |} ].

Definition codec : reference.Codec :=
  fixtures.tableCodec
    [("targets:0", fixtures.emptyRules); ("quoted:1", rulesQuoted);
     ("quoted:2", rulesPlain)].

(** The state with an empty top-level rule file and an empty rule file
    of the role with the quote in its name. *)
Definition state : policy.State :=
  {| policy.RootEnvelope := Some fixtures.rootEnvelope;
     policy.TargetsEnvelope := Some (fixtures.signedBy "targets:0");
     policy.DelegationEnvelopes :=
       Some {[ roleQuoted := fixtures.signedBy "targets:0" ]} |}.

(** [AddDelegation] with the table of this module as the codec. *)
Definition addRule (role rule : string) : repository.exit :=
  @repository.AddDelegation reference.GitRepository
    (@reference.policyPackage codec) (@reference.dssePackage codec)
    (fixtures.repoAt state) fixtures.signerB role rule [fixtures.keyC]
    fixtures.mainPatterns 1 false.

End quoted.

(** * Properties *)

Import mutations.

(** Case analysis along the early returns of a mutator. *)
Ltac along_returns :=
  repeat (case_decide || case_match); simplify_eq/=.

(** ** The slot update *)

Lemma setDelegationEnvelope_lookup state role env state' :
  policy.setDelegationEnvelope state role env = Some state' →
  policy.RootEnvelope state' = policy.RootEnvelope state ∧
  policy.TargetsEnvelope state' = policy.TargetsEnvelope state ∧
  policy.delegationEnvelope state' role = Some env ∧
  ∀ other, other ≠ role →
    policy.delegationEnvelope state' other
    = policy.delegationEnvelope state other.
Proof.
  unfold policy.setDelegationEnvelope, policy.delegationEnvelope.
  destruct (policy.DelegationEnvelopes state) as [m|] eqn:Hm; [|done].
  intros [= <-]; simpl. split_and!; [done | done | |].
  - apply lookup_insert_eq.
  - intros other Hne. by rewrite lookup_insert_ne.
Qed.

Lemma makeDelegationEnvelopes_lookup state other :
  policy.delegationEnvelope (policy.makeDelegationEnvelopes state) other
  = policy.delegationEnvelope state other.
Proof.
  unfold policy.makeDelegationEnvelopes, policy.delegationEnvelope.
  destruct (policy.DelegationEnvelopes state) eqn:Hm; simpl.
  - by rewrite Hm.
  - apply lookup_empty.
Qed.

Lemma makeDelegationEnvelopes_assignable state role env :
  is_Some (policy.setDelegationEnvelope
             (policy.makeDelegationEnvelopes state) role env).
Proof.
  unfold policy.makeDelegationEnvelopes, policy.setDelegationEnvelope.
  destruct (policy.DelegationEnvelopes state) eqn:Hm; simpl.
  - rewrite Hm. eauto.
  - eauto.
Qed.

Lemma update_slotReplaced state role env state' :
  (if decide (role = policy.TargetsRoleName)
   then Some (policy.setTargetsEnvelope state env)
   else policy.setDelegationEnvelope state role env) = Some state' →
  slotReplaced state role env state'.
Proof.
  unfold slotReplaced. case_decide as Hrole.
  - by intros [= <-].
  - intros Hset. apply setDelegationEnvelope_lookup in Hset. naive_solver.
Qed.

Lemma initial_slotReplaced state role env state' :
  (if decide (role = policy.TargetsRoleName)
   then Some (policy.setTargetsEnvelope state env)
   else policy.setDelegationEnvelope
          (policy.makeDelegationEnvelopes state) role env) = Some state' →
  slotReplaced state role env state'.
Proof.
  unfold slotReplaced. case_decide as Hrole.
  - by intros [= <-].
  - intros Hset. apply setDelegationEnvelope_lookup in Hset.
    destruct Hset as (Hroot & Htargets & Hrole' & Hothers).
    split_and!; [| |done|].
    + rewrite Hroot. unfold policy.makeDelegationEnvelopes.
      by destruct (policy.DelegationEnvelopes state).
    + rewrite Htargets. unfold policy.makeDelegationEnvelopes.
      by destruct (policy.DelegationEnvelopes state).
    + intros other Hne. rewrite Hothers by done.
      apply makeDelegationEnvelopes_lookup.
Qed.

Section Generic.
Context {GitRepository : Type}.
Context `{!policy.Package GitRepository} `{!dsse.Package}.
Implicit Types (this : repository.Repository GitRepository)
  (signer : sslibdsse.SignerVerifier) (call : mutation).

(** A mutator either returns early, or every step before the slot
    update succeeded; it then panics or ends in the call of [Commit]
    on the loaded state with one slot replaced. *)
Lemma run_inv this signer call signCommit :
  (∃ err, run this signer call signCommit = repository.Return err) ∨
  (∃ state env',
     prepared this signer call state env' ∧
     (run this signer call signCommit = repository.Panic ∨
      ∃ state' commitMessage,
        run this signer call signCommit
        = repository.TailCommit state' commitMessage signCommit ∧
        slotReplaced state (roleOf call) env' state')).
Proof.
  destruct call; simpl;
    unfold repository.InitializeTargets, repository.AddDelegation,
      repository.UpdateDelegation, repository.RemoveDelegation,
      repository.AddKeyToTargets, repository.SignTargets.
  all: repeat
         (match goal with
          | |- context [match ?x with inl _ => _ | inr _ => _ end] =>
              destruct x eqn:?; [by left; eauto|]
          | |- context [if decide ?P then repository.Return _ else _] =>
              destruct (decide P); [by left; eauto|]
          | |- context [if negb ?b then repository.Return _ else _] =>
              destruct b eqn:?; simpl; [|by left; eauto]
          | |- context [if ?b then repository.Return _ else _] =>
              destruct b eqn:?; [by left; eauto|]
          end).
  all: right; eexists _, _; split;
    [ unfold prepared, resigned; naive_solver | ].
  all: match goal with
       | |- context [match ?u with Some _ => _ | None => repository.Panic end] =>
           destruct u as [state'|] eqn:Hupdate; [right | by left]
       end.
  all: eexists _, _; split; [done|].
  all: first [ by apply update_slotReplaced
             | by apply initial_slotReplaced ].
Qed.

End Generic.

Section GenericClaims.
Context {GitRepository : Type}.
Context `{!policy.Package GitRepository} `{!dsse.Package}.
Implicit Types (this : repository.Repository GitRepository)
  (signer : sslibdsse.SignerVerifier) (call : mutation).

(** C1, as amended.  [InitializeTargets] rejects the role name ["root"],
    and [AddDelegation] and [UpdateDelegation] reject the rule name
    ["root"], with [ErrInvalidPolicyName] before anything else: whatever
    the receiver, the signer and the other arguments are.
    [RemoveDelegation] has no such guard: with the rule name ["root"] it
    resolves the key id and loads the state like for any other name, so
    that a failing load or a missing role decides what it returns. *)
Theorem reserved_name_rejected_first this signer role keys patterns
    threshold signCommit :
  repository.InitializeTargets this signer "root" signCommit
  = repository.Return (Some ErrInvalidPolicyName) ∧
  repository.AddDelegation this signer role "root" keys patterns threshold
    signCommit
  = repository.Return (Some ErrInvalidPolicyName) ∧
  repository.UpdateDelegation this signer role "root" keys patterns
    threshold signCommit
  = repository.Return (Some ErrInvalidPolicyName) ∧
  (∀ keyID, sslibdsse.KeyID signer = inr keyID →
     (∀ err,
        policy.LoadCurrentState (repository.r this) policy.PolicyStagingRef
        = inl err →
        repository.RemoveDelegation this signer role "root" signCommit
        = repository.Return (Some err)) ∧
     (∀ state,
        policy.LoadCurrentState (repository.r this) policy.PolicyStagingRef
        = inr state →
        policy.HasTargetsRole state role = false →
        repository.RemoveDelegation this signer role "root" signCommit
        = repository.Return (Some ErrMetadataNotFound))).
Proof.
  split_and!.
  - unfold repository.InitializeTargets. by rewrite decide_True.
  - unfold repository.AddDelegation. by rewrite decide_True.
  - unfold repository.UpdateDelegation. by rewrite decide_True.
  - intros keyID HkeyID. unfold repository.RemoveDelegation.
    rewrite HkeyID. split.
    + intros err Hload. by rewrite Hload.
    + intros state Hload Hrole. by rewrite Hload, Hrole.
Qed.

(** C3.  A commit is only reached after every step succeeded: when a
    mutator ends in the call of [Commit], the key id was resolved, the
    state was loaded, every precondition check passed, and the metadata
    transformation, the envelope creation and the signing all succeeded;
    and when any of these steps fails, the mutator returns without
    calling [Commit], so that the store, and with it the staging
    reference, is left as it was. *)
Theorem commit_only_after_every_step this signer call signCommit :
  (∀ state' commitMessage signCommit',
     run this signer call signCommit
     = repository.TailCommit state' commitMessage signCommit' →
     ∃ state env', prepared this signer call state env') ∧
  ((∀ state env', ¬ prepared this signer call state env') →
   ∃ err,
     run this signer call signCommit = repository.Return err ∧
     repository.finish this (run this signer call signCommit)
     = Some (repository.r this, err)).
Proof.
  destruct (run_inv this signer call signCommit)
    as [[err Hret] | (state & env' & Hprepared & _)].
  - split.
    + intros state' commitMessage signCommit' Hcommit. congruence.
    + intros _. exists err. by rewrite Hret.
  - split.
    + eauto.
    + intros Hfails. by destruct (Hfails state env').
Qed.

(** C7.  When the loaded state already has a rule file of the given
    name, [InitializeTargets] fails with [ErrCannotReinitialize] and
    does not call [Commit]: the store is left as it was. *)
Theorem reinitialize_refused this signer role signCommit keyID state :
  role ≠ "root" →
  sslibdsse.KeyID signer = inr keyID →
  policy.LoadCurrentState (repository.r this) policy.PolicyStagingRef
  = inr state →
  policy.HasTargetsRole state role = true →
  repository.InitializeTargets this signer role signCommit
  = repository.Return (Some ErrCannotReinitialize) ∧
  repository.finish this
    (repository.InitializeTargets this signer role signCommit)
  = Some (repository.r this, Some ErrCannotReinitialize).
Proof.
  intros Hname HkeyID Hload Hrole.
  assert (repository.InitializeTargets this signer role signCommit
          = repository.Return (Some ErrCannotReinitialize)) as ->; [|done].
  unfold repository.InitializeTargets.
  rewrite decide_False by done. by rewrite HkeyID, Hload, Hrole.
Qed.

(** C8.  The message of the commit follows the template of the
    operation: whenever one of the four mutators ends in the call of
    [Commit], the message it passes is the template filled with its
    string arguments. *)
Theorem commit_message_templates this signer role rule keys patterns
    threshold signCommit :
  (∀ state' commitMessage signCommit',
     repository.InitializeTargets this signer role signCommit
     = repository.TailCommit state' commitMessage signCommit' →
     commitMessage = "Initialize policy '" +:+ role +:+ "'") ∧
  (∀ state' commitMessage signCommit',
     repository.AddDelegation this signer role rule keys patterns
       threshold signCommit
     = repository.TailCommit state' commitMessage signCommit' →
     commitMessage
     = "Add rule '" +:+ rule +:+ "' to policy '" +:+ role +:+ "'") ∧
  (∀ state' commitMessage signCommit',
     repository.UpdateDelegation this signer role rule keys patterns
       threshold signCommit
     = repository.TailCommit state' commitMessage signCommit' →
     commitMessage
     = "Update rule '" +:+ rule +:+ "' in policy '" +:+ role +:+ "'") ∧
  (∀ state' commitMessage signCommit',
     repository.RemoveDelegation this signer role rule signCommit
     = repository.TailCommit state' commitMessage signCommit' →
     commitMessage
     = "Remove rule '" +:+ rule +:+ "' from policy '" +:+ role +:+ "'").
Proof.
  split_and!; intros state' commitMessage signCommit';
    unfold repository.InitializeTargets, repository.AddDelegation,
      repository.UpdateDelegation, repository.RemoveDelegation;
    intros Hcommit; by along_returns.
Qed.

(** C9.  A mutator that reaches the commit has replaced exactly one
    envelope slot of the loaded state, and by the envelope it signed:
    the state it commits has the signed envelope in [TargetsEnvelope]
    when the role is the top-level one and in the entry of the role in
    [DelegationEnvelopes] otherwise; the Root envelope, the slot not
    selected and the entries of all other roles are as loaded. *)
Theorem one_slot_replaced this signer call signCommit state'
    commitMessage signCommit' :
  run this signer call signCommit
  = repository.TailCommit state' commitMessage signCommit' →
  ∃ state env',
    policy.LoadCurrentState (repository.r this) policy.PolicyStagingRef
    = inr state ∧
    prepared this signer call state env' ∧
    slotReplaced state (roleOf call) env' state'.
Proof.
  intros Hcommit.
  destruct (run_inv this signer call signCommit)
    as [[err Hret] | (state & env' & Hprepared & [Hpanic | Hdone])].
  - congruence.
  - congruence.
  - destruct Hdone as (state'' & message & Hrun & Hslot).
    exists state, env'. split_and!.
    + by destruct Hprepared as (_ & Hload & _).
    + done.
    + congruence.
Qed.

End GenericClaims.

Section GuardOrder.
Context {GitRepository : Type}.
Context `{!policy.Package GitRepository} `{!dsse.Package}.
Implicit Types (this : repository.Repository GitRepository)
  (signer : sslibdsse.SignerVerifier).

(** Once the state is loaded, [AddDelegation] first asks whether the
    rule name is taken. *)
Lemma AddDelegation_taken this signer role rule keys patterns threshold
    signCommit keyID state :
  rule ≠ policy.RootRoleName →
  sslibdsse.KeyID signer = inr keyID →
  policy.LoadCurrentState (repository.r this) policy.PolicyStagingRef
  = inr state →
  policy.HasRuleName state rule = true →
  repository.AddDelegation this signer role rule keys patterns threshold
    signCommit
  = repository.Return (Some ErrDuplicatedRuleName).
Proof.
  intros Hname HkeyID Hload Htaken. unfold repository.AddDelegation.
  rewrite decide_False by done. by rewrite HkeyID, Hload, Htaken.
Qed.

(** C6, as amended.  When the loaded state has no rule file of the
    given role name, [UpdateDelegation], [RemoveDelegation],
    [AddKeyToTargets] and [SignTargets] fail with [ErrMetadataNotFound],
    and so does [AddDelegation] provided the rule name is not already
    taken in the loaded state. *)
Theorem missing_role_not_found this signer role signCommit state :
  policy.LoadCurrentState (repository.r this) policy.PolicyStagingRef
  = inr state →
  policy.HasTargetsRole state role = false →
  (∀ keyID rule keys patterns threshold,
     rule ≠ "root" →
     sslibdsse.KeyID signer = inr keyID →
     policy.HasRuleName state rule = false →
     repository.AddDelegation this signer role rule keys patterns
       threshold signCommit
     = repository.Return (Some ErrMetadataNotFound)) ∧
  (∀ keyID rule keys patterns threshold,
     rule ≠ "root" →
     sslibdsse.KeyID signer = inr keyID →
     repository.UpdateDelegation this signer role rule keys patterns
       threshold signCommit
     = repository.Return (Some ErrMetadataNotFound)) ∧
  (∀ keyID rule,
     sslibdsse.KeyID signer = inr keyID →
     repository.RemoveDelegation this signer role rule signCommit
     = repository.Return (Some ErrMetadataNotFound)) ∧
  (∀ keyID keys,
     sslibdsse.KeyID signer = inr keyID →
     repository.AddKeyToTargets this signer role keys signCommit
     = repository.Return (Some ErrMetadataNotFound)) ∧
  repository.SignTargets this signer role signCommit
  = repository.Return (Some ErrMetadataNotFound).
Proof.
  intros Hload Hrole. split_and!.
  - intros keyID rule keys patterns threshold Hname HkeyID Hfree.
    unfold repository.AddDelegation. rewrite decide_False by done.
    by rewrite HkeyID, Hload, Hfree, Hrole.
  - intros keyID rule keys patterns threshold Hname HkeyID.
    unfold repository.UpdateDelegation. rewrite decide_False by done.
    by rewrite HkeyID, Hload, Hrole.
  - intros keyID rule HkeyID. unfold repository.RemoveDelegation.
    by rewrite HkeyID, Hload, Hrole.
  - intros keyID keys HkeyID. unfold repository.AddKeyToTargets.
    by rewrite HkeyID, Hload, Hrole.
  - unfold repository.SignTargets. by rewrite Hload, Hrole.
Qed.

(** C10.  In [AddDelegation] the check of the rule name comes before
    the check of the role: for a rule name already taken in the loaded
    state and a role the state does not have, the result is
    [ErrDuplicatedRuleName] and not [ErrMetadataNotFound]. *)
Theorem duplicate_rule_before_missing_role this signer role rule keys
    patterns threshold signCommit keyID state :
  rule ≠ "root" →
  sslibdsse.KeyID signer = inr keyID →
  policy.LoadCurrentState (repository.r this) policy.PolicyStagingRef
  = inr state →
  policy.HasRuleName state rule = true →
  policy.HasTargetsRole state role = false →
  repository.AddDelegation this signer role rule keys patterns threshold
    signCommit
  = repository.Return (Some ErrDuplicatedRuleName) ∧
  repository.AddDelegation this signer role rule keys patterns threshold
    signCommit
  ≠ repository.Return (Some ErrMetadataNotFound).
Proof.
  intros Hname HkeyID Hload Htaken _.
  rewrite (AddDelegation_taken _ _ _ _ _ _ _ _ keyID state) by done.
  by split.
Qed.

(** The failures the mutators turn into a nil return: an unresolved
    key id in five of them, and a failed envelope creation or signing
    in the four that re-create the rule file of a delegation. *)
Lemma KeyID_failure_returns_nil this signer err role rule keys patterns
    threshold signCommit :
  sslibdsse.KeyID signer = inl err →
  role ≠ policy.RootRoleName → rule ≠ policy.RootRoleName →
  repository.InitializeTargets this signer role signCommit
  = repository.Return None ∧
  repository.AddDelegation this signer role rule keys patterns threshold
    signCommit = repository.Return None ∧
  repository.UpdateDelegation this signer role rule keys patterns
    threshold signCommit = repository.Return None ∧
  repository.RemoveDelegation this signer role rule signCommit
  = repository.Return None ∧
  repository.AddKeyToTargets this signer role keys signCommit
  = repository.Return None.
Proof.
  intros HkeyID Hrole Hrule.
  unfold repository.InitializeTargets, repository.AddDelegation,
    repository.UpdateDelegation, repository.RemoveDelegation,
    repository.AddKeyToTargets.
  rewrite !decide_False by done. by rewrite HkeyID.
Qed.

(** [SignTargets] hands every failure of a step to its caller. *)
Lemma SignTargets_propagates this signer role signCommit :
  repository.SignTargets this signer role signCommit
  ≠ repository.Return None.
Proof.
  unfold repository.SignTargets. by along_returns.
Qed.

End GuardOrder.

(** ** The reference implementation *)

Lemma slotReplaced_roleEnvelope state role env state' :
  slotReplaced state role env state' →
  policy.roleEnvelope state' role = Some env.
Proof.
  unfold slotReplaced, policy.roleEnvelope.
  destruct (decide (role = policy.TargetsRoleName)); tauto.
Qed.

Lemma roleEnvelope_slot state role env :
  policy.roleEnvelope state role = Some env →
  policy.TargetsEnvelope state = Some env ∨
  ∃ name, policy.delegationEnvelope state name = Some env.
Proof.
  unfold policy.roleEnvelope. case_decide; eauto.
Qed.

Lemma elem_of_roleEnvelopes state env :
  env ∈ reference.roleEnvelopes state ↔
  policy.TargetsEnvelope state = Some env ∨
  ∃ role, policy.delegationEnvelope state role = Some env.
Proof.
  unfold reference.roleEnvelopes, policy.delegationEnvelope.
  rewrite elem_of_app.
  destruct (policy.TargetsEnvelope state) as [top|];
    destruct (policy.DelegationEnvelopes state) as [m|];
    rewrite ?list_elem_of_singleton, ?elem_of_nil, ?list_elem_of_fmap.
  all: split; [intros [Htop | Hentry] | intros [Htop | [role Hentry]]].
  all: try done; try (left; congruence).
  all: try (destruct Hentry as [[role env0] [-> Hin]]; right; exists role;
            by apply elem_of_map_to_list in Hin).
  all: right; exists (role, env); split; [done|];
    by apply elem_of_map_to_list.
Qed.

Lemma hasDelegation_true metadata rule :
  reference.hasDelegation metadata rule = true ↔
  ∃ delegation,
    delegation ∈ tuf.Delegations metadata ∧ tuf.Name delegation = rule.
Proof.
  unfold reference.hasDelegation. rewrite existsb_exists.
  setoid_rewrite bool_decide_eq_true.
  setoid_rewrite <- list_elem_of_In. done.
Qed.

Lemma LoadCurrentState_root repo ref state :
  reference.LoadCurrentState repo ref = inr state →
  is_Some (policy.RootEnvelope state).
Proof.
  unfold reference.LoadCurrentState. intros Hload.
  along_returns. eauto.
Qed.

Lemma LoadCurrentState_Commit state repo commitMessage signCommit :
  is_Some (policy.RootEnvelope state) →
  reference.LoadCurrentState
    (reference.Commit state repo commitMessage signCommit).1
    reference.PolicyStagingRef
  = inr state.
Proof.
  intros [root Hroot].
  unfold reference.LoadCurrentState, reference.Commit, reference.history.
  simpl. rewrite lookup_insert_eq. simpl. by rewrite Hroot.
Qed.

Lemma SignEnvelope_inv env signer env' :
  reference.SignEnvelope (Some env) signer = inr env' →
  ∃ keyID sig,
    sslibdsse.KeyID signer = inr keyID ∧
    sslibdsse.Sign signer (sslibdsse.Payload env) = inr sig ∧
    env' = {| sslibdsse.Payload := sslibdsse.Payload env;
              sslibdsse.Signatures :=
                reference.withSignature (sslibdsse.Signatures env)
                  keyID sig |}.
Proof.
  unfold reference.SignEnvelope. intros Hsign. along_returns. eauto.
Qed.

Section Reference.
Context `{!reference.Codec}.
Implicit Types (this : repository.Repository reference.GitRepository)
  (signer : sslibdsse.SignerVerifier).

(** The search of [HasRuleName] finds a rule name exactly when it
    occurs in the delegation list of some role of the state. *)
Lemma HasRuleName_true state rule :
  reference.HasRuleName state rule = true ↔
  reference.ruleInGraph state rule.
Proof.
  unfold reference.HasRuleName, reference.ruleInGraph.
  rewrite existsb_exists. split.
  - intros (env & Hin & Hfound).
    apply list_elem_of_In, elem_of_roleEnvelopes in Hin.
    destruct (reference.unmarshal (sslibdsse.Payload env))
      as [|metadata] eqn:Hdecode; [done|].
    apply hasDelegation_true in Hfound as (delegation & Hd & Hname).
    by exists env, metadata, delegation.
  - intros (env & metadata & delegation & Hslot & Hdecode & Hd & Hname).
    exists env. split.
    + by apply list_elem_of_In, elem_of_roleEnvelopes.
    + rewrite Hdecode. apply hasDelegation_true. eauto.
Qed.

Lemma HasTargetsRole_true state role :
  reference.HasTargetsRole state role = true ↔
  is_Some (policy.roleEnvelope state role).
Proof.
  unfold reference.HasTargetsRole.
  destruct (policy.roleEnvelope state role); split;
    (done || by intros [? ?] || eauto).
Qed.

(** A rule file that [AddDelegation] of the package [policy] returns
    has the rule. *)
Lemma AddDelegation_has_rule metadata rule keys patterns threshold
    metadata' :
  reference.AddDelegation metadata rule keys patterns threshold
  = inr metadata' →
  reference.hasDelegation metadata' rule = true.
Proof.
  unfold reference.AddDelegation. intros Hadd. along_returns.
  apply hasDelegation_true.
  exists {| tuf.Name := rule; tuf.AuthorizedKeys := keys;
            tuf.Paths := patterns; tuf.Threshold := threshold |}.
  split; [|done].
  simpl. apply elem_of_app. right. by apply list_elem_of_singleton.
Qed.

(** C4.  When the rule name already occurs in the delegation list of
    any role of the loaded state, the top-level role or any delegated
    one, [AddDelegation] fails with [ErrDuplicatedRuleName] whatever
    role it names; hence, with a serialization that round-trips, after
    an [AddDelegation] that reached its commit, a second one with the
    same rule name fails with [ErrDuplicatedRuleName] on the same or
    on any other role. *)
Theorem duplicate_rule_name_anywhere :
  (∀ this signer role rule keys patterns threshold signCommit keyID state,
     rule ≠ "root" →
     sslibdsse.KeyID signer = inr keyID →
     reference.LoadCurrentState (repository.r this)
       reference.PolicyStagingRef = inr state →
     reference.ruleInGraph state rule →
     repository.AddDelegation this signer role rule keys patterns
       threshold signCommit
     = repository.Return (Some ErrDuplicatedRuleName)) ∧
  (reference.CodecLaws →
   ∀ this signer role rule keys patterns threshold signCommit state'
     commitMessage signCommit',
     repository.AddDelegation this signer role rule keys patterns
       threshold signCommit
     = repository.TailCommit state' commitMessage signCommit' →
     ∀ signer2 role2 keys2 patterns2 threshold2 signCommit2 keyID2,
       sslibdsse.KeyID signer2 = inr keyID2 →
       repository.AddDelegation
         {| repository.r :=
              (reference.Commit state' (repository.r this) commitMessage
                 signCommit').1 |}
         signer2 role2 rule keys2 patterns2 threshold2 signCommit2
       = repository.Return (Some ErrDuplicatedRuleName)).
Proof.
  split.
  - intros this signer role rule keys patterns threshold signCommit keyID
      state Hname HkeyID Hload Hgraph.
    apply (AddDelegation_taken _ _ _ _ _ _ _ _ keyID state); try done.
    by apply HasRuleName_true.
  - intros Hlaws this signer role rule keys patterns threshold signCommit
      state' commitMessage signCommit' Hcommit signer2 role2 keys2
      patterns2 threshold2 signCommit2 keyID2 HkeyID2.
    destruct (run_inv this signer
                (CallAddDelegation role rule keys patterns threshold)
                signCommit)
      as [[err Hret] | (state & env' & Hprepared & [Hpanic | Hdone])];
      simpl in *; [congruence | congruence |].
    destruct Hdone as (state'' & message & Hrun & Hslot).
    assert (state'' = state') as -> by congruence.
    destruct Hprepared as (_ & Hload & Hname & _ & _ & Hresigned).
    destruct Hresigned as (metadata & metadata' & env & _ & Hadd & Hwrap
                           & Hsign).
    simpl in *.
    apply SignEnvelope_inv in Hsign as (keyID & sig & _ & _ & ->).
    unfold reference.CreateEnvelope in Hwrap.
    destruct (reference.marshal metadata') as [|payload] eqn:Hmarshal;
      [done|].
    injection Hwrap as <-. simpl in *.
    apply (AddDelegation_taken _ _ _ _ _ _ _ _ keyID2 state');
      [done | done | |].
    + simpl. apply LoadCurrentState_Commit.
      destruct Hslot as [-> _]. eapply LoadCurrentState_root, Hload.
    + simpl. apply HasRuleName_true.
      apply AddDelegation_has_rule, hasDelegation_true in Hadd
        as (delegation & Hd & Hrule).
      eexists _, metadata', delegation. split_and!; [| |done|done].
      * eapply roleEnvelope_slot, slotReplaced_roleEnvelope, Hslot.
      * simpl. by apply reference.unmarshal_marshal.
Qed.

(** C5.  [SignTargets] signs the envelope the loaded state holds for
    the role, with no envelope created anew: the envelope it commits
    for the role has the payload of the loaded one, with the signature
    of the signer's key id set in its signature list, so that the rule
    file the role decodes to, and its version with it, is the same
    before and after. *)
Theorem sign_targets_keeps_payload this signer role signCommit state'
    commitMessage signCommit' :
  repository.SignTargets this signer role signCommit
  = repository.TailCommit state' commitMessage signCommit' →
  ∃ state env env' keyID sig,
    reference.LoadCurrentState (repository.r this)
      reference.PolicyStagingRef = inr state ∧
    policy.roleEnvelope state role = Some env ∧
    sslibdsse.KeyID signer = inr keyID ∧
    sslibdsse.Sign signer (sslibdsse.Payload env) = inr sig ∧
    policy.roleEnvelope state' role = Some env' ∧
    sslibdsse.Payload env' = sslibdsse.Payload env ∧
    sslibdsse.Signatures env'
    = reference.withSignature (sslibdsse.Signatures env) keyID sig ∧
    reference.GetTargetsMetadata state' role
    = reference.GetTargetsMetadata state role.
Proof.
  intros Hcommit.
  destruct (run_inv this signer (CallSignTargets role) signCommit)
    as [[err Hret] | (state & env' & Hprepared & [Hpanic | Hdone])];
    simpl in *; [congruence | congruence |].
  destruct Hdone as (state'' & message & Hrun & Hslot).
  assert (state'' = state') as -> by congruence.
  destruct Hprepared as (_ & Hload & Hrole & Hsign). simpl in *.
  apply HasTargetsRole_true in Hrole as [env Henv].
  rewrite Henv in Hsign.
  apply SignEnvelope_inv in Hsign as (keyID & sig & HkeyID & Hsig & ->).
  apply slotReplaced_roleEnvelope in Hslot.
  eexists state, env, _, keyID, sig.
  split_and!; [done | done | done | done | exact Hslot | done | done |].
  unfold reference.GetTargetsMetadata. by rewrite Hslot, Henv.
Qed.

End Reference.

Lemma HasTargetsRole_assignable state role env :
  role ≠ policy.TargetsRoleName →
  reference.HasTargetsRole state role = true →
  is_Some (policy.setDelegationEnvelope state role env).
Proof.
  unfold reference.HasTargetsRole, policy.roleEnvelope,
    policy.delegationEnvelope, policy.setDelegationEnvelope.
  intros Hrole. rewrite decide_False by done.
  destruct (policy.DelegationEnvelopes state); [eauto | done].
Qed.

(** With the reference implementation no mutator panics: a role that
    [HasTargetsRole] reports has its envelope, so the delegation map
    that is assigned to is never nil. *)
Lemma reference_never_panics `{!reference.Codec}
    (this : repository.Repository reference.GitRepository) signer call
    signCommit :
  run this signer call signCommit ≠ repository.Panic.
Proof.
  destruct call; simpl;
    unfold repository.InitializeTargets, repository.AddDelegation,
      repository.UpdateDelegation, repository.RemoveDelegation,
      repository.AddKeyToTargets, repository.SignTargets;
    cbn [policy.HasTargetsRole reference.policyPackage].
  all: repeat case_match; try done.
  all: match goal with
       | Hset : policy.setDelegationEnvelope
                  (policy.makeDelegationEnvelopes ?s) ?n ?e = None |- _ =>
           destruct (makeDelegationEnvelopes_assignable s n e) as [? ?]
       | Hset : policy.setDelegationEnvelope ?s ?n ?e = None,
         Hrole : negb (reference.HasTargetsRole ?s ?n) = false |- _ =>
           apply negb_false_iff in Hrole;
           destruct (HasTargetsRole_assignable s n e) as [? ?];
           [done | done |]
       end.
  all: congruence.
Qed.

(** ** The mutators on the fixtures *)

Import fixtures.

(** The table codec of the fixtures round-trips. *)
Lemma codec_laws : @reference.CodecLaws codec.
Proof.
  constructor. intros metadata payload. simpl.
  unfold tableMarshal, tableUnmarshal, table. cbn [find fst snd].
  repeat case_bool_decide; intros [= <-]; subst; by vm_compute.
Qed.

(** C2.  The code fails the claim: in [InitializeTargets] and
    [AddDelegation] a signer whose key id cannot be resolved, a signer
    that cannot sign and a rule file that cannot be serialized each end
    the mutator with a nil error, which the caller cannot tell from a
    success, and the store is as it was; [SignTargets] hands the same
    failures to its caller. *)
Theorem failed_steps_return_nil :
  sslibdsse.KeyID signerNoKeyID = inl (ErrOther "key id unavailable") ∧
  repository.finish (repoAt rootOnly)
    (repository.InitializeTargets (repoAt rootOnly) signerNoKeyID
       "targets" false)
  = Some (storeAt rootOnly, None) ∧
  repository.finish (repoAt withTargets)
    (repository.AddDelegation (repoAt withTargets) signerNoKeyID
       "targets" "protect-main" [keyC] mainPatterns 1 false)
  = Some (storeAt withTargets, None) ∧
  dsse.SignEnvelope (Some (signedBy "targets:0")) signerCannotSign
  = inl (ErrOther "signing failed") ∧
  repository.finish (repoAt rootOnly)
    (repository.InitializeTargets (repoAt rootOnly) signerCannotSign
       "targets" false)
  = Some (storeAt rootOnly, None) ∧
  repository.finish (repoAt withTargets)
    (repository.AddDelegation (repoAt withTargets) signerCannotSign
       "targets" "protect-main" [keyC] mainPatterns 1 false)
  = Some (storeAt withTargets, None) ∧
  @reference.CreateEnvelope noCodec reference.InitializeTargetsMetadata
  = inl (ErrOther "cannot serialize") ∧
  repository.finish (repoAt rootOnly)
    (initializeWithoutCodec (repoAt rootOnly) signerB "targets")
  = Some (storeAt rootOnly, None) ∧
  repository.SignTargets (repoAt withTargets) signerNoKeyID "targets" false
  = repository.Return (Some (ErrOther "key id unavailable")) ∧
  repository.SignTargets (repoAt withTargets) signerCannotSign "targets"
    false
  = repository.Return (Some (ErrOther "signing failed")).
Proof.
  split_and!; by vm_compute.
Qed.

(** C1, the claim as stated fails: [RemoveDelegation] with the rule
    name ["root"] on a store whose policy is not initialized returns
    the error of the load, and on a state without the role it returns
    [ErrMetadataNotFound]; neither is [ErrInvalidPolicyName]. *)
Lemma remove_delegation_root_not_rejected :
  repository.RemoveDelegation emptyRepo signerB "targets" "root" false
  = repository.Return (Some ErrPolicyNotInitialized) ∧
  repository.RemoveDelegation (repoAt rootOnly) signerB "targets" "root"
    false
  = repository.Return (Some ErrMetadataNotFound) ∧
  repository.RemoveDelegation emptyRepo signerB "targets" "root" false
  ≠ repository.Return (Some ErrInvalidPolicyName).
Proof.
  split_and!; by vm_compute.
Qed.

(** C6, the claim as stated fails: the loaded state has no role
    ["nowhere"], and [AddDelegation] with a rule name already taken
    returns [ErrDuplicatedRuleName], not [ErrMetadataNotFound]. *)
Lemma add_delegation_missing_role_duplicate :
  reference.LoadCurrentState (storeAt withRule) reference.PolicyStagingRef
  = inr withRule ∧
  reference.HasTargetsRole withRule "nowhere" = false ∧
  repository.AddDelegation (repoAt withRule) signerB "nowhere"
    "protect-main" [keyC] mainPatterns 1 false
  = repository.Return (Some ErrDuplicatedRuleName) ∧
  repository.AddDelegation (repoAt withRule) signerB "nowhere"
    "protect-main" [keyC] mainPatterns 1 false
  ≠ repository.Return (Some ErrMetadataNotFound).
Proof.
  split_and!; by vm_compute.
Qed.

(** *** The statements at concrete inputs *)

Lemma reserved_name_rejected_first_witness :
  (repository.InitializeTargets emptyRepo signerNoKeyID "root" false
   = repository.Return (Some ErrInvalidPolicyName) ∧
   repository.AddDelegation emptyRepo signerNoKeyID "nowhere" "root" [keyC]
     mainPatterns 0 false
   = repository.Return (Some ErrInvalidPolicyName) ∧
   repository.UpdateDelegation emptyRepo signerNoKeyID "nowhere" "root"
     [keyC] mainPatterns 0 false
   = repository.Return (Some ErrInvalidPolicyName)) ∧
  repository.RemoveDelegation (repoAt rootOnly) signerB "targets" "root"
    false
  = repository.Return (Some ErrMetadataNotFound).
Proof.
  split.
  - pose proof (reserved_name_rejected_first emptyRepo signerNoKeyID
                  "nowhere" [keyC] mainPatterns 0 false)
      as (Hinit & Hadd & Hupdate & _).
    by split_and!.
  - pose proof (reserved_name_rejected_first (repoAt rootOnly) signerB
                  "targets" [keyC] mainPatterns 0 false)
      as (_ & _ & _ & Hremove).
    destruct (Hremove "key-B" eq_refl) as [_ Hmissing].
    apply (Hmissing rootOnly); by vm_compute.
Defined.

Lemma commit_only_after_every_step_witness :
  (∃ state env',
     prepared (repoAt withTargets) signerB
       (CallAddDelegation "targets" "protect-main" [keyC] mainPatterns 1)
       state env') ∧
  (∃ err,
     run (repoAt withRule) signerB
       (CallAddDelegation "targets" "protect-main" [keyC] mainPatterns 1)
       true
     = repository.Return err ∧
     repository.finish (repoAt withRule)
       (run (repoAt withRule) signerB
          (CallAddDelegation "targets" "protect-main" [keyC]
             mainPatterns 1) true)
     = Some (storeAt withRule, err)).
Proof.
  split.
  - apply (proj1 (commit_only_after_every_step (repoAt withTargets)
                    signerB
                    (CallAddDelegation "targets" "protect-main" [keyC]
                       mainPatterns 1) false)
             withRule "Add rule 'protect-main' to policy 'targets'" false).
    by vm_compute.
  - apply (proj2 (commit_only_after_every_step (repoAt withRule) signerB
                    (CallAddDelegation "targets" "protect-main" [keyC]
                       mainPatterns 1) true)).
    intros state env' (_ & Hload & _ & Hfree & _).
    vm_compute in Hload. injection Hload as <-.
    vm_compute in Hfree. discriminate Hfree.
Defined.

Lemma duplicate_rule_name_anywhere_witness :
  repository.AddDelegation (repoAt withTeam) signerB "team" "protect-main"
    [keyC] mainPatterns 1 false
  = repository.Return (Some ErrDuplicatedRuleName) ∧
  repository.AddDelegation
    {| repository.r :=
         (reference.Commit withRule (storeAt withTargets)
            "Add rule 'protect-main' to policy 'targets'" false).1 |}
    signerB "nowhere" "protect-main" [] [] 0 true
  = repository.Return (Some ErrDuplicatedRuleName).
Proof.
  destruct duplicate_rule_name_anywhere as [Hgraph Hsecond]. split.
  - apply (Hgraph (repoAt withTeam) signerB "team" "protect-main" [keyC]
             mainPatterns 1%Z false "key-B" withTeam);
      [done | done | by vm_compute |].
    exists (signedBy "targets:1"), oneRule, protectMain.
    split_and!; [by left | by vm_compute | | done].
    by apply list_elem_of_singleton.
  - apply (Hsecond codec_laws (repoAt withTargets) signerB "targets"
             "protect-main" [keyC] mainPatterns 1%Z false withRule
             "Add rule 'protect-main' to policy 'targets'" false
             ltac:(by vm_compute) signerB "nowhere" [] [] 0%Z true "key-B").
    done.
Defined.

Lemma sign_targets_keeps_payload_witness :
  ∃ state env env' keyID sig,
    reference.LoadCurrentState (storeAt withTeam)
      reference.PolicyStagingRef = inr state ∧
    policy.roleEnvelope state "team" = Some env ∧
    sslibdsse.KeyID signerB = inr keyID ∧
    sslibdsse.Sign signerB (sslibdsse.Payload env) = inr sig ∧
    policy.roleEnvelope withTeam "team" = Some env' ∧
    sslibdsse.Payload env' = sslibdsse.Payload env ∧
    sslibdsse.Signatures env'
    = reference.withSignature (sslibdsse.Signatures env) keyID sig ∧
    reference.GetTargetsMetadata withTeam "team"
    = reference.GetTargetsMetadata state "team".
Proof.
  apply (sign_targets_keeps_payload (repoAt withTeam) signerB "team" false
           withTeam "Add signature from key 'key-B' to policy 'team'"
           false).
  by vm_compute.
Defined.

Lemma missing_role_not_found_witness :
  repository.AddDelegation (repoAt withTargets) signerB "nowhere"
    "protect-main" [keyC] mainPatterns 1 false
  = repository.Return (Some ErrMetadataNotFound) ∧
  repository.UpdateDelegation (repoAt withTargets) signerB "nowhere"
    "protect-main" [keyC] mainPatterns 1 false
  = repository.Return (Some ErrMetadataNotFound) ∧
  repository.RemoveDelegation (repoAt withTargets) signerB "nowhere"
    "protect-main" false
  = repository.Return (Some ErrMetadataNotFound) ∧
  repository.AddKeyToTargets (repoAt withTargets) signerB "nowhere" [keyC]
    false
  = repository.Return (Some ErrMetadataNotFound) ∧
  repository.SignTargets (repoAt withTargets) signerB "nowhere" false
  = repository.Return (Some ErrMetadataNotFound).
Proof.
  destruct (missing_role_not_found (repoAt withTargets) signerB "nowhere"
              false withTargets ltac:(by vm_compute) ltac:(by vm_compute))
    as (Hadd & Hupdate & Hremove & Hkeys & Hsign).
  split_and!.
  - apply (Hadd "key-B"); [done | done | by vm_compute].
  - by apply (Hupdate "key-B").
  - by apply (Hremove "key-B").
  - by apply (Hkeys "key-B").
  - exact Hsign.
Defined.

Lemma reinitialize_refused_witness :
  repository.InitializeTargets (repoAt withTargets) signerB "targets" true
  = repository.Return (Some ErrCannotReinitialize) ∧
  repository.finish (repoAt withTargets)
    (repository.InitializeTargets (repoAt withTargets) signerB "targets"
       true)
  = Some (storeAt withTargets, Some ErrCannotReinitialize).
Proof.
  apply (reinitialize_refused (repoAt withTargets) signerB "targets" true
           "key-B" withTargets); by vm_compute.
Defined.

Lemma commit_message_templates_witness :
  (repository.InitializeTargets (repoAt rootOnly) signerB "targets" false
   = repository.TailCommit withTargets "Initialize policy 'targets'" false ∧
   "Initialize policy 'targets'" = "Initialize policy '" +:+ "targets" +:+ "'") ∧
  (repository.AddDelegation (repoAt withTargets) signerB "targets"
     "protect-main" [keyC] mainPatterns 1 false
   = repository.TailCommit withRule
       "Add rule 'protect-main' to policy 'targets'" false ∧
   "Add rule 'protect-main' to policy 'targets'"
   = "Add rule '" +:+ "protect-main" +:+ "' to policy '" +:+ "targets"
       +:+ "'") ∧
  (repository.UpdateDelegation (repoAt withRule) signerB "targets"
     "protect-main" [keyC] mainPatterns 1 false
   = repository.TailCommit withRule
       "Update rule 'protect-main' in policy 'targets'" false ∧
   "Update rule 'protect-main' in policy 'targets'"
   = "Update rule '" +:+ "protect-main" +:+ "' in policy '" +:+ "targets"
       +:+ "'") ∧
  (repository.RemoveDelegation (repoAt withRule) signerB "targets"
     "protect-main" false
   = repository.TailCommit withTargets
       "Remove rule 'protect-main' from policy 'targets'" false ∧
   "Remove rule 'protect-main' from policy 'targets'"
   = "Remove rule '" +:+ "protect-main" +:+ "' from policy '" +:+ "targets"
       +:+ "'").
Proof.
  split_and!.
  1, 3, 5, 7: by vm_compute.
  - apply (proj1 (commit_message_templates (repoAt rootOnly) signerB
                    "targets" "protect-main" [keyC] mainPatterns 1 false)
             withTargets _ false).
    by vm_compute.
  - apply (proj1 (proj2 (commit_message_templates (repoAt withTargets)
                           signerB "targets" "protect-main" [keyC]
                           mainPatterns 1 false))
             withRule _ false).
    by vm_compute.
  - apply (proj1 (proj2 (proj2 (commit_message_templates (repoAt withRule)
                                  signerB "targets" "protect-main" [keyC]
                                  mainPatterns 1 false)))
             withRule _ false).
    by vm_compute.
  - apply (proj2 (proj2 (proj2 (commit_message_templates (repoAt withRule)
                                  signerB "targets" "protect-main" [keyC]
                                  mainPatterns 1 false)))
             withTargets _ false).
    by vm_compute.
Defined.

Lemma one_slot_replaced_witness :
  ∃ state env',
    reference.LoadCurrentState (storeAt withTargets)
      reference.PolicyStagingRef = inr state ∧
    prepared (repoAt withTargets) signerB (CallInitializeTargets "team")
      state env' ∧
    slotReplaced state "team" env' teamInitialized.
Proof.
  exact (one_slot_replaced (repoAt withTargets) signerB
           (CallInitializeTargets "team") false teamInitialized
           "Initialize policy 'team'" false ltac:(by vm_compute)).
Defined.

Lemma duplicate_rule_before_missing_role_witness :
  repository.AddDelegation (repoAt withRule) signerB "nowhere"
    "protect-main" [keyC] mainPatterns 1 false
  = repository.Return (Some ErrDuplicatedRuleName) ∧
  repository.AddDelegation (repoAt withRule) signerB "nowhere"
    "protect-main" [keyC] mainPatterns 1 false
  ≠ repository.Return (Some ErrMetadataNotFound).
Proof.
  apply (duplicate_rule_before_missing_role (repoAt withRule) signerB
           "nowhere" "protect-main" [keyC] mainPatterns 1 false "key-B"
           withRule); by vm_compute.
Defined.

(** * Further properties of the mutators *)

(** Unfolds the appends to a literal prefix. *)
Ltac expose_prefix :=
  unfold String.append in *; fold String.append in *.

Lemma string_app_assoc (a b c : string) : (a +:+ b) +:+ c = a +:+ b +:+ c.
Proof.
  induction a as [|ch a IH]; expose_prefix; [done | by rewrite IH].
Qed.

Lemma string_app_nil_r (a : string) : a +:+ "" = a.
Proof.
  induction a as [|ch a IH]; expose_prefix; [done | by rewrite IH].
Qed.

Lemma concat_empty_cons (x : string) (xs : list string) :
  String.concat "" (x :: xs) = x +:+ String.concat "" xs.
Proof.
  destruct xs; cbn [String.concat]; [by rewrite string_app_nil_r | done].
Qed.

(** The loop over the keys builds the lines of the keys in order. *)
Lemma keyIDsOf_concat (keys : list tuf.Key) :
  repository.keyIDsOf keys
  = String.concat ""
      (map (fun key =>
              repository.newline +:+ tuf.KeyType key +:+ ":"
                +:+ tuf.KeyID key)
           keys).
Proof.
  unfold repository.keyIDsOf.
  assert (∀ acc,
            fold_left
              (fun keyIDs key =>
                 keyIDs +:+ repository.newline +:+ tuf.KeyType key +:+ ":"
                   +:+ tuf.KeyID key) keys acc
            = acc +:+ String.concat ""
                (map (fun key =>
                        repository.newline +:+ tuf.KeyType key +:+ ":"
                          +:+ tuf.KeyID key) keys)) as Hfold.
  { induction keys as [|key keys IH]; intros acc.
    - cbn [fold_left map String.concat]. by rewrite string_app_nil_r.
    - cbn [fold_left map]. rewrite IH, concat_empty_cons.
      by rewrite !string_app_assoc. }
  apply (Hfold "").
Qed.

Section MoreGeneric.
Context {GitRepository : Type}.
Context `{!policy.Package GitRepository} `{!dsse.Package}.
Implicit Types (this : repository.Repository GitRepository)
  (signer : sslibdsse.SignerVerifier) (call : mutation).

(** The message and the flag of a commit: a mutator that ends in the
    call of [Commit] resolved the key id, passes the message of its
    kind and hands [signCommit] on as it got it. *)
Lemma run_commit_message this signer call signCommit state' commitMessage
    signCommit' :
  run this signer call signCommit
  = repository.TailCommit state' commitMessage signCommit' →
  ∃ keyID,
    sslibdsse.KeyID signer = inr keyID ∧
    commitMessage = messages.messageOf call keyID ∧
    signCommit' = signCommit.
Proof.
  destruct call; simpl;
    unfold repository.InitializeTargets, repository.AddDelegation,
      repository.UpdateDelegation, repository.RemoveDelegation,
      repository.AddKeyToTargets, repository.SignTargets;
    intros Hcommit; along_returns; eexists; split_and!; try done.
  all: by rewrite keyIDsOf_concat.
Qed.

(** X1.  When every step of a mutator succeeds, it does not return
    early: it ends in the call of [Commit], with the message of its
    kind, with [signCommit] as it got it, and on the loaded state with
    the slot of the role replaced by the signed envelope; the only
    other outcome is the panic of an assignment into a nil delegation
    map, which [InitializeTargets] rules out. *)
Theorem prepared_reaches_commit this signer call signCommit state env'
    keyID :
  prepared this signer call state env' →
  sslibdsse.KeyID signer = inr keyID →
  (run this signer call signCommit = repository.Panic ∧
   roleOf call ≠ policy.TargetsRoleName ∧
   policy.DelegationEnvelopes state = None ∧
   messages.kindOf call ≠ messages.Initialize) ∨
  (∃ state',
     run this signer call signCommit
     = repository.TailCommit state' (messages.messageOf call keyID)
         signCommit ∧
     slotReplaced state (roleOf call) env' state').
Proof.
  intros Hprepared HkeyID.
  destruct (run this signer call signCommit) as [err|state' message flag|]
    eqn:Hrun.
  - exfalso. revert Hrun. destruct Hprepared as (_ & Hload & Hsteps).
    destruct call; simpl in *;
      unfold repository.InitializeTargets, repository.AddDelegation,
        repository.UpdateDelegation, repository.RemoveDelegation,
        repository.AddKeyToTargets, repository.SignTargets;
      unfold resigned, policy.roleEnvelope in *;
      rewrite ?HkeyID, ?Hload; destruct_and?;
      repeat match goal with
             | H : ∃ _, _ |- _ => destruct H
             end; destruct_and?;
      rewrite ?decide_False by done;
      repeat match goal with
             | H : ?x = _ |- context [?x] => rewrite H; simpl
             end;
      by along_returns.
  - right. exists state'.
    destruct (run_commit_message _ _ _ _ _ _ _ Hrun)
      as (keyID' & HkeyID' & -> & ->).
    assert (keyID' = keyID) as -> by congruence.
    split; [done|].
    destruct (run_inv this signer call signCommit)
      as [[err Hret] | (state0 & env0 & Hprepared0 & [Hpanic | Hdone])];
      [congruence | congruence |].
    destruct Hdone as (state'' & message & Hrun' & Hslot).
    assert (state'' = state') as -> by congruence.
    assert (state0 = state ∧ env0 = env') as [-> ->]; [|done].
    clear Hrun Hrun' Hslot.
    destruct Hprepared as (_ & Hload & Hsteps).
    destruct Hprepared0 as (_ & Hload0 & Hsteps0).
    assert (state0 = state) as -> by congruence. split; [done|].
    destruct call; simpl in *; unfold resigned in *;
      destruct_and?;
      repeat match goal with
             | H : ∃ _, _ |- _ => destruct H
             end; destruct_and?; congruence.
  - left. split; [done|].
    destruct Hprepared as (_ & Hload & Hsteps).
    revert Hrun.
    destruct call; simpl in *;
      unfold repository.InitializeTargets, repository.AddDelegation,
        repository.UpdateDelegation, repository.RemoveDelegation,
        repository.AddKeyToTargets, repository.SignTargets;
      rewrite ?HkeyID, ?Hload; intros Hrun; along_returns.
    all: try match goal with
           | Hset : policy.setDelegationEnvelope
                      (policy.makeDelegationEnvelopes ?s) ?n ?e = None
             |- _ =>
               by destruct (makeDelegationEnvelopes_assignable s n e)
                 as [? ?]; simplify_eq
           end.
    all: split_and!; try done.
    all: match goal with
         | Hset : policy.setDelegationEnvelope ?s _ _ = None |- _ =>
             unfold policy.setDelegationEnvelope in Hset;
             by destruct (policy.DelegationEnvelopes s)
         end.
Qed.

(** X2.  [InitializeTargets] never panics, whatever the collaborators
    do: it makes the delegation map when the loaded state has none
    before it assigns the entry of a delegated role. *)
Theorem InitializeTargets_never_panics this signer role signCommit :
  repository.InitializeTargets this signer role signCommit
  ≠ repository.Panic.
Proof.
  unfold repository.InitializeTargets. intros Hpanic. along_returns.
  match goal with
  | Hset : policy.setDelegationEnvelope
             (policy.makeDelegationEnvelopes ?s) ?n ?e = None |- _ =>
      destruct (makeDelegationEnvelopes_assignable s n e) as [? ?]
  end.
  congruence.
Qed.

End MoreGeneric.

Section StepErrors.
Context {GitRepository : Type}.
Context `{!policy.Package GitRepository} `{!dsse.Package}.
Implicit Types (this : repository.Repository GitRepository)
  (signer : sslibdsse.SignerVerifier).

(** X3.  The error of a failed load is returned as it is by all six
    mutators, once the steps before the load have passed; in
    [SignTargets] the load is the first step, so there the signer does
    not matter. *)
Theorem load_error_returned this signer err keyID role rule keys patterns
    threshold signCommit :
  policy.LoadCurrentState (repository.r this) policy.PolicyStagingRef
  = inl err →
  sslibdsse.KeyID signer = inr keyID →
  role ≠ "root" → rule ≠ "root" →
  repository.InitializeTargets this signer role signCommit
  = repository.Return (Some err) ∧
  repository.AddDelegation this signer role rule keys patterns threshold
    signCommit = repository.Return (Some err) ∧
  repository.UpdateDelegation this signer role rule keys patterns
    threshold signCommit = repository.Return (Some err) ∧
  repository.RemoveDelegation this signer role rule signCommit
  = repository.Return (Some err) ∧
  repository.AddKeyToTargets this signer role keys signCommit
  = repository.Return (Some err) ∧
  ∀ anySigner,
    repository.SignTargets this anySigner role signCommit
    = repository.Return (Some err).
Proof.
  intros Hload HkeyID Hrole Hrule.
  unfold repository.InitializeTargets, repository.AddDelegation,
    repository.UpdateDelegation, repository.RemoveDelegation,
    repository.AddKeyToTargets, repository.SignTargets.
  rewrite !decide_False by done. by rewrite HkeyID, Hload.
Qed.

(** X4.  In the four mutators that rewrite a rule file, an error of
    reading the rule file of the role or of transforming it is returned
    as it is. *)
Theorem metadata_error_returned this signer keyID state role rule keys
    patterns threshold signCommit err :
  sslibdsse.KeyID signer = inr keyID →
  policy.LoadCurrentState (repository.r this) policy.PolicyStagingRef
  = inr state →
  policy.HasTargetsRole state role = true →
  rule ≠ "root" →
  (policy.GetTargetsMetadata state role = inl err →
   (policy.HasRuleName state rule = false →
    repository.AddDelegation this signer role rule keys patterns
      threshold signCommit = repository.Return (Some err)) ∧
   repository.UpdateDelegation this signer role rule keys patterns
     threshold signCommit = repository.Return (Some err) ∧
   repository.RemoveDelegation this signer role rule signCommit
   = repository.Return (Some err) ∧
   repository.AddKeyToTargets this signer role keys signCommit
   = repository.Return (Some err)) ∧
  (∀ metadata,
     policy.GetTargetsMetadata state role = inr metadata →
     (policy.HasRuleName state rule = false →
      policy.AddDelegation metadata rule keys patterns threshold
      = inl err →
      repository.AddDelegation this signer role rule keys patterns
        threshold signCommit = repository.Return (Some err)) ∧
     (policy.UpdateDelegation metadata rule keys patterns threshold
      = inl err →
      repository.UpdateDelegation this signer role rule keys patterns
        threshold signCommit = repository.Return (Some err)) ∧
     (policy.RemoveDelegation metadata rule = inl err →
      repository.RemoveDelegation this signer role rule signCommit
      = repository.Return (Some err)) ∧
     (policy.AddKeyToTargets metadata keys = inl err →
      repository.AddKeyToTargets this signer role keys signCommit
      = repository.Return (Some err))).
Proof.
  intros HkeyID Hload Hrole Hrule.
  unfold repository.AddDelegation, repository.UpdateDelegation,
    repository.RemoveDelegation, repository.AddKeyToTargets.
  rewrite !decide_False by done. rewrite HkeyID, Hload, Hrole. simpl.
  split.
  - intros Hread. rewrite Hread. split_and!; try done.
    by intros ->.
  - intros metadata Hread. rewrite Hread. split_and!.
    + by intros -> ->.
    + by intros ->.
    + by intros ->.
    + by intros ->.
Qed.

(** X5.  [SignTargets] never returns nil without calling [Commit]; on
    a loaded state that has the role, an unresolved key id and a failed
    signing of the stored envelope are each returned as they are. *)
Theorem SignTargets_returns_step_error this signer role signCommit :
  repository.SignTargets this signer role signCommit
  ≠ repository.Return None ∧
  ∀ state,
    policy.LoadCurrentState (repository.r this) policy.PolicyStagingRef
    = inr state →
    policy.HasTargetsRole state role = true →
    (∀ err,
       sslibdsse.KeyID signer = inl err →
       repository.SignTargets this signer role signCommit
       = repository.Return (Some err)) ∧
    (∀ keyID err,
       sslibdsse.KeyID signer = inr keyID →
       dsse.SignEnvelope (policy.roleEnvelope state role) signer
       = inl err →
       repository.SignTargets this signer role signCommit
       = repository.Return (Some err)).
Proof.
  split.
  - unfold repository.SignTargets. by along_returns.
  - intros state Hload Hrole. unfold repository.SignTargets.
    rewrite Hload, Hrole. simpl. split.
    + by intros err ->.
    + intros keyID err -> Hsign. unfold policy.roleEnvelope in Hsign.
      by rewrite Hsign.
Qed.

(** X6.  [AddKeyToTargets] returns nil without calling [Commit]
    exactly when the key id of the signer cannot be resolved: every
    other failure reaches the caller as an error. *)
Theorem AddKeyToTargets_nil_iff this signer role keys signCommit :
  repository.AddKeyToTargets this signer role keys signCommit
  = repository.Return None ↔
  ∃ err, sslibdsse.KeyID signer = inl err.
Proof.
  unfold repository.AddKeyToTargets. split.
  - intros Hnil. along_returns; eauto.
  - by intros [err ->].
Qed.

(** X7.  The messages of the two remaining mutators: [AddKeyToTargets]
    commits with the role and, after an empty line, one line
    [<type>:<id>] per key in the order given; [SignTargets] commits
    with the key id the signer resolved and the role. *)
Theorem key_and_signature_messages this signer role keys signCommit :
  (∀ state' commitMessage signCommit',
     repository.AddKeyToTargets this signer role keys signCommit
     = repository.TailCommit state' commitMessage signCommit' →
     commitMessage
     = "Add keys to policy '" +:+ role +:+ "'" +:+ repository.newline
         +:+ String.concat ""
               (map (fun key =>
                       repository.newline +:+ tuf.KeyType key +:+ ":"
                         +:+ tuf.KeyID key)
                    keys)) ∧
  (∀ state' commitMessage signCommit',
     repository.SignTargets this signer role signCommit
     = repository.TailCommit state' commitMessage signCommit' →
     ∃ keyID,
       sslibdsse.KeyID signer = inr keyID ∧
       commitMessage
       = "Add signature from key '" +:+ keyID +:+ "' to policy '"
           +:+ role +:+ "'").
Proof.
  split; intros state' commitMessage signCommit' Hcommit.
  - destruct (run_commit_message this signer
                (CallAddKeyToTargets role keys) signCommit _ _ _ Hcommit)
      as (keyID & _ & -> & _).
    done.
  - destruct (run_commit_message this signer (CallSignTargets role)
                signCommit _ _ _ Hcommit)
      as (keyID & HkeyID & -> & _).
    by exists keyID.
Qed.

End StepErrors.

(** * The commit messages, read back *)

Lemma string_app_length (a b : string) :
  String.length (a +:+ b) = String.length a + String.length b.
Proof.
  induction a as [|ch a IH]; expose_prefix; simpl; [done | by rewrite IH].
Qed.

Lemma string_app_inv_tail (a b c : string) : a +:+ c = b +:+ c → a = b.
Proof.
  revert b. induction a as [|ch a IH]; intros [|ch' b] Heq.
  - done.
  - apply (f_equal String.length) in Heq.
    rewrite !string_app_length in Heq. simpl in Heq. lia.
  - apply (f_equal String.length) in Heq.
    rewrite !string_app_length in Heq. simpl in Heq. lia.
  - expose_prefix. injection Heq as -> Heq. by rewrite (IH b Heq).
Qed.

(** Two strings without a quote that are each followed by a quote are
    cut at the same place. *)
Lemma quote_split (a b x y : string) :
  messages.quoteFree a = true → messages.quoteFree b = true →
  a +:+ String "'" x = b +:+ String "'" y → a = b ∧ x = y.
Proof.
  revert b. induction a as [|ch a IH]; intros [|ch' b] Ha Hb Heq;
    expose_prefix; simpl in Ha, Hb.
  - by injection Heq as ->.
  - injection Heq as <- _. by rewrite Ascii.eqb_refl in Hb.
  - injection Heq as -> _. by rewrite Ascii.eqb_refl in Ha.
  - injection Heq as -> Heq.
    apply andb_true_iff in Ha as [_ Ha], Hb as [_ Hb].
    by destruct (IH b Ha Hb Heq) as [-> ->].
Qed.

Lemma messageOf_kind call1 keyID1 call2 keyID2 :
  messages.messageOf call1 keyID1 = messages.messageOf call2 keyID2 →
  messages.kindOf call1 = messages.kindOf call2 ∧
  (messages.kindOf call1 = messages.Initialize →
   roleOf call1 = roleOf call2).
Proof.
  destruct call1, call2; unfold messages.messageOf; intros Heq;
    expose_prefix; simplify_eq; split; try done.
  intros _. simpl. by eapply string_app_inv_tail.
Qed.

Lemma messageOf_rule_and_role call1 keyID1 call2 keyID2 rule1 rule2 :
  messages.messageOf call1 keyID1 = messages.messageOf call2 keyID2 →
  messages.ruleOf call1 = Some rule1 →
  messages.ruleOf call2 = Some rule2 →
  messages.quoteFree rule1 = true → messages.quoteFree rule2 = true →
  rule1 = rule2 ∧ roleOf call1 = roleOf call2.
Proof.
  intros Heq Hrule1 Hrule2 Hfree1 Hfree2.
  destruct call1, call2; simplify_eq/=; unfold messages.messageOf in Heq;
    expose_prefix; simplify_eq.
  all: match goal with
       | H : _ +:+ String "'" _ = _ +:+ String "'" _ |- _ =>
           apply quote_split in H as [-> H]; [|done|done]
       end.
  all: simplify_eq; split; [done|]; by eapply string_app_inv_tail.
Qed.

Section Messages.
Context {GitRepository : Type}.
Context `{!policy.Package GitRepository} `{!dsse.Package}.
Implicit Types (this : repository.Repository GitRepository)
  (signer : sslibdsse.SignerVerifier) (call : mutation).

(** X8.  The message of a commit tells the kind of the mutation: two
    mutators of different kinds never commit with the same message,
    whatever their arguments; and the message of [InitializeTargets]
    tells the role as well. *)
Theorem commit_message_tells_kind this1 signer1 call1 signCommit1 state1
    flag1 this2 signer2 call2 signCommit2 state2 flag2 commitMessage :
  run this1 signer1 call1 signCommit1
  = repository.TailCommit state1 commitMessage flag1 →
  run this2 signer2 call2 signCommit2
  = repository.TailCommit state2 commitMessage flag2 →
  messages.kindOf call1 = messages.kindOf call2 ∧
  (messages.kindOf call1 = messages.Initialize →
   roleOf call1 = roleOf call2).
Proof.
  intros Hrun1 Hrun2.
  apply run_commit_message in Hrun1 as (keyID1 & _ & Hmessage1 & _).
  apply run_commit_message in Hrun2 as (keyID2 & _ & Hmessage2 & _).
  apply (messageOf_kind call1 keyID1 call2 keyID2). congruence.
Qed.

(** X9.  For the three mutators of delegations the message tells the
    rule and the role, as long as the rule names hold no single quote:
    two such commits with the same message are about the same rule of
    the same role. *)
Theorem commit_message_tells_rule_and_role this1 signer1 call1 signCommit1
    state1 flag1 this2 signer2 call2 signCommit2 state2 flag2
    commitMessage rule1 rule2 :
  run this1 signer1 call1 signCommit1
  = repository.TailCommit state1 commitMessage flag1 →
  run this2 signer2 call2 signCommit2
  = repository.TailCommit state2 commitMessage flag2 →
  messages.ruleOf call1 = Some rule1 →
  messages.ruleOf call2 = Some rule2 →
  messages.quoteFree rule1 = true → messages.quoteFree rule2 = true →
  messages.kindOf call1 = messages.kindOf call2 ∧
  rule1 = rule2 ∧ roleOf call1 = roleOf call2.
Proof.
  intros Hrun1 Hrun2 Hrule1 Hrule2 Hfree1 Hfree2.
  apply run_commit_message in Hrun1 as (keyID1 & _ & Hmessage1 & _).
  apply run_commit_message in Hrun2 as (keyID2 & _ & Hmessage2 & _).
  assert (messages.messageOf call1 keyID1
          = messages.messageOf call2 keyID2) as Heq by congruence.
  split.
  - by apply (messageOf_kind call1 keyID1 call2 keyID2).
  - by apply (messageOf_rule_and_role call1 keyID1 call2 keyID2).
Qed.

(** X10.  Quotes in names are not escaped, so a message can be read in
    two ways: adding the rule [a' to policy 'b] to the role [c] and
    adding the rule [a] to the role [b' to policy 'c] commit with the
    same message. *)
Theorem quoted_names_share_a_message this1 signer1 this2 signer2 a b c
    keys1 patterns1 threshold1 signCommit1 keys2 patterns2 threshold2
    signCommit2 state1 message1 flag1 state2 message2 flag2 :
  repository.AddDelegation this1 signer1 c (a +:+ "' to policy '" +:+ b)
    keys1 patterns1 threshold1 signCommit1
  = repository.TailCommit state1 message1 flag1 →
  repository.AddDelegation this2 signer2 (b +:+ "' to policy '" +:+ c) a
    keys2 patterns2 threshold2 signCommit2
  = repository.TailCommit state2 message2 flag2 →
  message1 = message2.
Proof.
  intros Hrun1 Hrun2.
  apply (run_commit_message this1 signer1
           (CallAddDelegation c (a +:+ "' to policy '" +:+ b) keys1
              patterns1 threshold1)) in Hrun1
    as (keyID1 & _ & -> & _).
  apply (run_commit_message this2 signer2
           (CallAddDelegation (b +:+ "' to policy '" +:+ c) a keys2
              patterns2 threshold2)) in Hrun2
    as (keyID2 & _ & -> & _).
  unfold messages.messageOf. by rewrite !string_app_assoc.
Qed.

End Messages.

(** * Running Git commands *)

Section Executor.
Context `{!gitinterface.OS}.
Implicit Types (e : gitinterface.executor)
  (repo : gitinterface.Repository).

Lemma withGitDir_done e :
  gitinterface.setGitDirOnce (gitinterface.withGitDir e) = true.
Proof.
  unfold gitinterface.withGitDir.
  by destruct (gitinterface.setGitDirOnce e) eqn:Hdone.
Qed.

Lemma withGitDir_withGitDir e :
  gitinterface.withGitDir (gitinterface.withGitDir e)
  = gitinterface.withGitDir e.
Proof.
  unfold gitinterface.withGitDir at 1. by rewrite withGitDir_done.
Qed.

(** What [execute] leaves of the executor: the command line with the
    Git directory set, the environment as it was. *)
Lemma execute_executor e :
  gitinterface.args (gitinterface.execute e).1
  = gitinterface.args (gitinterface.withGitDir e) ∧
  gitinterface.env (gitinterface.execute e).1 = gitinterface.env e ∧
  gitinterface.r (gitinterface.execute e).1 = gitinterface.r e ∧
  gitinterface.setGitDirOnce (gitinterface.execute e).1 = true.
Proof.
  pose proof (withGitDir_done e) as Hdone.
  unfold gitinterface.execute, gitinterface.executeRaw.
  along_returns; split_and!; try done.
  all: unfold gitinterface.withGitDir;
    by destruct (gitinterface.setGitDirOnce e).
Qed.

(** X11.  The Git directory is set once: however often [withGitDir] is
    applied to an executor, the result is that of one application, and
    on a new executor the command line is the two arguments
    [--git-dir <path>] followed by the arguments given. *)
Theorem withGitDir_once e repo arguments n :
  Nat.iter (S n) gitinterface.withGitDir e = gitinterface.withGitDir e ∧
  gitinterface.args
    (Nat.iter (S n) gitinterface.withGitDir
       (gitinterface.Repository_executor repo arguments))
  = "--git-dir" :: gitinterface.gitDirPath repo :: arguments.
Proof.
  assert (∀ e', Nat.iter (S n) gitinterface.withGitDir e'
                = gitinterface.withGitDir e') as Hiter.
  { intros e'. induction n as [|n IH]; [done|].
    change (Nat.iter (S (S n)) gitinterface.withGitDir e')
      with (gitinterface.withGitDir
              (Nat.iter (S n) gitinterface.withGitDir e')).
    by rewrite IH, withGitDir_withGitDir. }
  split; [apply Hiter|]. by rewrite Hiter.
Qed.

(** X12.  The command [execute] runs for an executor made with
    [withEnv] and [withStdIn]: [git --git-dir <path>] and the arguments
    given, in the environment of the process followed by the variables
    added, on the input given.  When the command succeeds the result is
    its output without surrounding space; when it fails the error
    wraps the error of the command and names the whole command line
    and what the command wrote to its error output.  Setting the Git
    directory beforehand changes nothing. *)
Theorem execute_command_line repo arguments variables input :
  (∀ contents,
     gitinterface.runErr
       (gitinterface.Run gitinterface.binary
          ("--git-dir" :: gitinterface.gitDirPath repo :: arguments)
          (gitinterface.Environ ++ variables) input) = None →
     gitinterface.stdOut
       (gitinterface.Run gitinterface.binary
          ("--git-dir" :: gitinterface.gitDirPath repo :: arguments)
          (gitinterface.Environ ++ variables) input) = inr contents →
     (gitinterface.execute
        (gitinterface.withStdIn
           (gitinterface.withEnv
              (gitinterface.Repository_executor repo arguments) variables)
           input)).2
     = inr (gitinterface.TrimSpace contents)) ∧
  (∀ err contents,
     gitinterface.runErr
       (gitinterface.Run gitinterface.binary
          ("--git-dir" :: gitinterface.gitDirPath repo :: arguments)
          (gitinterface.Environ ++ variables) input) = Some err →
     gitinterface.stdErr
       (gitinterface.Run gitinterface.binary
          ("--git-dir" :: gitinterface.gitDirPath repo :: arguments)
          (gitinterface.Environ ++ variables) input) = inr contents →
     (gitinterface.execute
        (gitinterface.withStdIn
           (gitinterface.withEnv
              (gitinterface.Repository_executor repo arguments) variables)
           input)).2
     = inl (gitinterface.Errorf
              (gitinterface.Error err +:+ " when executing `git "
                 +:+ String.concat " "
                       ("--git-dir" :: gitinterface.gitDirPath repo
                          :: arguments)
                 +:+ "`: " +:+ contents)
              [err])) ∧
  (∀ e,
     gitinterface.execute (gitinterface.withGitDir e)
     = gitinterface.execute e).
Proof.
  split_and!.
  - intros contents Hrun Hout.
    unfold gitinterface.execute, gitinterface.executeRaw,
      gitinterface.withGitDir, gitinterface.ReadAll.
    cbn [gitinterface.withStdIn gitinterface.withEnv
         gitinterface.Repository_executor gitinterface.setGitDirOnce
         gitinterface.args gitinterface.env gitinterface.stdIn
         gitinterface.r app].
    by rewrite Hrun, Hout.
  - intros err contents Hrun Herr.
    unfold gitinterface.execute, gitinterface.executeRaw,
      gitinterface.withGitDir, gitinterface.ReadAll.
    cbn [gitinterface.withStdIn gitinterface.withEnv
         gitinterface.Repository_executor gitinterface.setGitDirOnce
         gitinterface.args gitinterface.env gitinterface.stdIn
         gitinterface.r app].
    by rewrite Hrun, Herr.
  - intros e. unfold gitinterface.execute.
    by rewrite withGitDir_withGitDir.
Qed.

(** X13.  Executing an executor again keeps its command line: after
    any number of executions of an executor whose Git directory was not
    set, the arguments are [--git-dir <path>] followed by the original
    ones, once, and the environment and the repository are the
    original ones. *)
Theorem execute_again_same_command e n :
  gitinterface.setGitDirOnce e = false →
  gitinterface.args
    (Nat.iter (S n) (fun e' => (gitinterface.execute e').1) e)
  = "--git-dir" :: gitinterface.gitDirPath (gitinterface.r e)
      :: gitinterface.args e ∧
  gitinterface.env
    (Nat.iter (S n) (fun e' => (gitinterface.execute e').1) e)
  = gitinterface.env e ∧
  gitinterface.r
    (Nat.iter (S n) (fun e' => (gitinterface.execute e').1) e)
  = gitinterface.r e.
Proof.
  intros Hfresh.
  assert (gitinterface.args (gitinterface.withGitDir e)
          = "--git-dir" :: gitinterface.gitDirPath (gitinterface.r e)
              :: gitinterface.args e) as Hargs.
  { unfold gitinterface.withGitDir. by rewrite Hfresh. }
  assert (let e' := Nat.iter (S n) (fun e' => (gitinterface.execute e').1)
                      e in
          gitinterface.args e' = gitinterface.args (gitinterface.withGitDir e)
          ∧ gitinterface.env e' = gitinterface.env e
          ∧ gitinterface.r e' = gitinterface.r e
          ∧ gitinterface.setGitDirOnce e' = true) as Hiter.
  { induction n as [|n IH].
    - apply execute_executor.
    - cbn zeta in *.
      change (Nat.iter (S (S n)) (fun e' => (gitinterface.execute e').1) e)
        with ((gitinterface.execute
                 (Nat.iter (S n)
                    (fun e' => (gitinterface.execute e').1) e)).1).
      destruct IH as (IHargs & IHenv & IHr & IHdone).
      destruct (execute_executor
                  (Nat.iter (S n)
                     (fun e' => (gitinterface.execute e').1) e))
        as (Hargs' & Henv' & Hr' & Hdone').
      split_and!; [|congruence|congruence|done].
      rewrite Hargs'. unfold gitinterface.withGitDir at 1.
      by rewrite IHdone. }
  cbn zeta in Hiter. destruct Hiter as (Hiargs & Hienv & Hir & _).
  split_and!; congruence.
Qed.

(** X14.  When [LoadRepository] succeeds: exactly when the Git binary
    is found and either the variable GIT_DIR is not empty, and then the
    Git directory is its value as it is, whatever a command would
    report, or the variable is empty and [git rev-parse --git-dir],
    given no Git directory argument, the environment of the process
    and no input, succeeds, and then the Git directory is its output
    without surrounding space. *)
Theorem LoadRepository_succeeds_iff repo :
  gitinterface.LoadRepository = inr repo ↔
  (∃ path, gitinterface.LookPath gitinterface.binary = inr path) ∧
  gitinterface.clock repo = Some gitinterface.RealClock ∧
  ((gitinterface.Getenv "GIT_DIR" ≠ "" ∧
    gitinterface.GetGitDir repo = gitinterface.Getenv "GIT_DIR") ∨
   (gitinterface.Getenv "GIT_DIR" = "" ∧
    gitinterface.runErr
      (gitinterface.Run gitinterface.binary ["rev-parse"; "--git-dir"]
         gitinterface.Environ None) = None ∧
    ∃ contents,
      gitinterface.stdOut
        (gitinterface.Run gitinterface.binary ["rev-parse"; "--git-dir"]
           gitinterface.Environ None) = inr contents ∧
      gitinterface.GetGitDir repo = gitinterface.TrimSpace contents)).
Proof.
  unfold gitinterface.LoadRepository, gitinterface.executeRaw,
    gitinterface.ReadAll, gitinterface.GetGitDir.
  cbn [gitinterface.Repository_executor gitinterface.args
       gitinterface.env gitinterface.stdIn gitinterface.clock].
  split.
  - intros Hload. along_returns.
    + split_and!; eauto.
    + split_and!; eauto. right. split_and!; eauto.
  - intros ([path Hpath] & Hclock & Hdir). rewrite Hpath.
    destruct repo as [dir clock]; simpl in *; subst clock.
    destruct Hdir as [[Hset ->] | (Hunset & Hrun & contents & Hout & ->)].
    + by rewrite decide_True.
    + rewrite decide_False by (by intros Hne; apply Hne).
      by rewrite Hrun, Hout.
Qed.

(** X15.  How [LoadRepository] fails: without the Git binary it fails
    with a fixed message that wraps nothing, also when GIT_DIR is set;
    and when [git rev-parse --git-dir] fails, the error wraps the error
    of the command and carries what the command wrote to its error
    output, without surrounding space. *)
Theorem LoadRepository_failures :
  (∀ lookErr,
     gitinterface.LookPath gitinterface.binary = inl lookErr →
     gitinterface.LoadRepository
     = inl (gitinterface.Errorf
              "unable to find Git binary, is Git installed?" [])) ∧
  (∀ path err contents,
     gitinterface.LookPath gitinterface.binary = inr path →
     gitinterface.Getenv "GIT_DIR" = "" →
     gitinterface.runErr
       (gitinterface.Run gitinterface.binary ["rev-parse"; "--git-dir"]
          gitinterface.Environ None) = Some err →
     gitinterface.stdErr
       (gitinterface.Run gitinterface.binary ["rev-parse"; "--git-dir"]
          gitinterface.Environ None) = inr contents →
     gitinterface.LoadRepository
     = inl (gitinterface.Errorf
              ("unable to identify GIT_DIR: " +:+ gitinterface.Error err
                 +:+ ": " +:+ gitinterface.TrimSpace contents)
              [err])).
Proof.
  unfold gitinterface.LoadRepository, gitinterface.executeRaw,
    gitinterface.ReadAll.
  cbn [gitinterface.Repository_executor gitinterface.args
       gitinterface.env gitinterface.stdIn].
  split.
  - by intros lookErr ->.
  - intros path err contents -> Hunset -> ->.
    by rewrite decide_False by (by intros Hne; apply Hne).
Qed.

End Executor.

(** *** The further statements at concrete inputs *)

Lemma prepared_reaches_commit_witness :
  (run (repoAt withTargets) signerB
     (CallAddDelegation "targets" "protect-main" [keyC] mainPatterns 1)
     false = repository.Panic ∧
   "targets" ≠ policy.TargetsRoleName ∧
   policy.DelegationEnvelopes withTargets = None ∧
   messages.AddRule ≠ messages.Initialize) ∨
  (∃ state',
     run (repoAt withTargets) signerB
       (CallAddDelegation "targets" "protect-main" [keyC] mainPatterns 1)
       false
     = repository.TailCommit state'
         "Add rule 'protect-main' to policy 'targets'" false ∧
     slotReplaced withTargets "targets" (signedBy "targets:1") state').
Proof.
  apply (prepared_reaches_commit (repoAt withTargets) signerB
           (CallAddDelegation "targets" "protect-main" [keyC]
              mainPatterns 1)
           false withTargets (signedBy "targets:1") "key-B");
    [|done].
  split_and!; [by exists "key-B" | by vm_compute | done | by vm_compute
               | by vm_compute |].
  exists emptyRules, oneRule,
    {| sslibdsse.Payload := "targets:1"; sslibdsse.Signatures := [] |}.
  split_and!; by vm_compute.
Defined.

Lemma load_error_returned_witness :
  repository.InitializeTargets emptyRepo signerB "targets" false
  = repository.Return (Some ErrPolicyNotInitialized) ∧
  repository.AddDelegation emptyRepo signerB "targets" "protect-main"
    [keyC] mainPatterns 1 false
  = repository.Return (Some ErrPolicyNotInitialized) ∧
  repository.UpdateDelegation emptyRepo signerB "targets" "protect-main"
    [keyC] mainPatterns 1 false
  = repository.Return (Some ErrPolicyNotInitialized) ∧
  repository.RemoveDelegation emptyRepo signerB "targets" "protect-main"
    false
  = repository.Return (Some ErrPolicyNotInitialized) ∧
  repository.AddKeyToTargets emptyRepo signerB "targets" [keyC] false
  = repository.Return (Some ErrPolicyNotInitialized) ∧
  ∀ anySigner,
    repository.SignTargets emptyRepo anySigner "targets" false
    = repository.Return (Some ErrPolicyNotInitialized).
Proof.
  apply (load_error_returned emptyRepo signerB ErrPolicyNotInitialized
           "key-B" "targets" "protect-main" [keyC] mainPatterns 1 false);
    by vm_compute.
Defined.

Lemma metadata_error_returned_witness :
  repository.UpdateDelegation (repoAt withTargets) signerB "targets"
    "protect-main" [keyC] mainPatterns 1 false
  = repository.Return (Some ErrRuleNotFound).
Proof.
  destruct (metadata_error_returned (repoAt withTargets) signerB "key-B"
              withTargets "targets" "protect-main" [keyC] mainPatterns 1
              false ErrRuleNotFound
              ltac:(by vm_compute) ltac:(by vm_compute)
              ltac:(by vm_compute) ltac:(by vm_compute))
    as [_ Htransform].
  destruct (Htransform emptyRules ltac:(by vm_compute))
    as (_ & Hupdate & _).
  apply Hupdate. by vm_compute.
Defined.

Lemma commit_message_tells_kind_witness :
  messages.kindOf (CallInitializeTargets "targets")
  = messages.kindOf (CallInitializeTargets "targets") ∧
  (messages.kindOf (CallInitializeTargets "targets") = messages.Initialize →
   roleOf (CallInitializeTargets "targets")
   = roleOf (CallInitializeTargets "targets")).
Proof.
  apply (commit_message_tells_kind
           (repoAt rootOnly) signerB (CallInitializeTargets "targets")
           false withTargets false
           (repoAt rootOnly) signerB (CallInitializeTargets "targets")
           true withTargets true "Initialize policy 'targets'");
    by vm_compute.
Defined.

Lemma commit_message_tells_rule_and_role_witness :
  messages.AddRule = messages.AddRule ∧
  "protect-main" = "protect-main" ∧ "targets" = "targets".
Proof.
  apply (commit_message_tells_rule_and_role
           (repoAt withTargets) signerB
           (CallAddDelegation "targets" "protect-main" [keyC]
              mainPatterns 1)
           false withRule false
           (repoAt withTargets) signerB
           (CallAddDelegation "targets" "protect-main" [keyC]
              mainPatterns 1)
           true withRule true
           "Add rule 'protect-main' to policy 'targets'"
           "protect-main" "protect-main");
    by vm_compute.
Defined.

Lemma quoted_names_share_a_message_witness :
  match quoted.addRule "targets" quoted.ruleQuoted,
        quoted.addRule quoted.roleQuoted "x" with
  | repository.TailCommit _ message1 _,
    repository.TailCommit _ message2 _ => message1 = message2
  | _, _ => False
  end.
Proof.
  destruct (quoted.addRule "targets" quoted.ruleQuoted)
    as [err1|state1 message1 flag1|] eqn:Hrun1;
    [by vm_compute in Hrun1 | | by vm_compute in Hrun1].
  destruct (quoted.addRule quoted.roleQuoted "x")
    as [err2|state2 message2 flag2|] eqn:Hrun2;
    [by vm_compute in Hrun2 | | by vm_compute in Hrun2].
  exact (quoted_names_share_a_message _ _ _ _ "x" "team" "targets"
           _ _ _ _ _ _ _ _ _ _ _ _ _ _ Hrun1 Hrun2).
Defined.

Lemma execute_again_same_command_witness :
  gitinterface.args
    (Nat.iter 2
       (fun e' => (@gitinterface.execute (machine.withGit "") e').1)
       (@gitinterface.Repository_executor (machine.withGit "")
          machine.workRepo ["status"]))
  = ["--git-dir"; ".git"; "status"] ∧
  gitinterface.env
    (Nat.iter 2
       (fun e' => (@gitinterface.execute (machine.withGit "") e').1)
       (@gitinterface.Repository_executor (machine.withGit "")
          machine.workRepo ["status"]))
  = ["HOME=/root"] ∧
  gitinterface.r
    (Nat.iter 2
       (fun e' => (@gitinterface.execute (machine.withGit "") e').1)
       (@gitinterface.Repository_executor (machine.withGit "")
          machine.workRepo ["status"]))
  = machine.workRepo.
Proof.
  exact (@execute_again_same_command (machine.withGit "")
           (@gitinterface.Repository_executor (machine.withGit "")
              machine.workRepo ["status"])
           1 eq_refl).
Defined.
